(** * LinkedIn post publisher: a shallow embedding of [streamlit_app.py]

    The Streamlit script generates a LinkedIn post with an external text
    model and publishes it through LinkedIn's REST API.  The script is
    modelled handler by handler.  External services (the HTTP endpoints
    reached through [requests] and the text model) and the two Streamlit
    calls that render an uploaded file are an environment of oracles; the
    notices the script shows and the calls it makes to the outside world
    are recorded, in order, in a trace of events. *)

From Stdlib Require Import ZArith NArith List Ascii String DecimalString Bool Lia.
From stdpp Require Import gmap strings list fin_maps.
Import ListNotations.

Local Open Scope N_scope.

(** ** Python strings

    A Python [str] is a sequence of Unicode code points.  String literals of
    the source are written as UTF-8 text and decoded by [py]. *)

Abbreviation pystr := (list N).

Fixpoint utf8_decode (bs : list N) : pystr :=
  match bs with
  | [] => []
  | b0 :: r0 =>
    if b0 <? 128 then b0 :: utf8_decode r0
    else
      match r0 with
      | [] => []
      | b1 :: r1 =>
        if b0 <? 224 then ((b0 mod 32) * 64 + b1 mod 64) :: utf8_decode r1
        else
          match r1 with
          | [] => []
          | b2 :: r2 =>
            if b0 <? 240
            then ((b0 mod 16) * 4096 + (b1 mod 64) * 64 + b2 mod 64) :: utf8_decode r2
            else
              match r2 with
              | [] => []
              | b3 :: r3 =>
                ((b0 mod 8) * 262144 + (b1 mod 64) * 4096 + (b2 mod 64) * 64 + b3 mod 64)
                  :: utf8_decode r3
              end
          end
      end
  end.

Definition py (s : string) : pystr :=
  utf8_decode (List.map N_of_ascii (list_ascii_of_string s)).

Arguments py : simpl never.

(** The double quote, which the literals below cannot hold. *)
Definition dq : pystr := [34].

(** The line feed. *)
Definition nl : pystr := [10].

(** [str(n)] for a Python [int]. *)
Definition str_int (z : Z) : pystr := py (NilZero.string_of_int (Z.to_int z)).

Arguments str_int : simpl never.

(** Truth value of a [str]: empty is false. *)
Definition truthy_str (s : pystr) : bool :=
  match s with [] => false | _ :: _ => true end.

(** [str.isspace] on one code point (CPython's [_PyUnicode_IsWhitespace]). *)
Definition isspace (c : N) : bool :=
  ((9 <=? c) && (c <=? 13)) || ((28 <=? c) && (c <=? 32))
  || (c =? 133) || (c =? 160) || (c =? 5760)
  || ((8192 <=? c) && (c <=? 8202))
  || (c =? 8232) || (c =? 8233) || (c =? 8239) || (c =? 8287) || (c =? 12288).

Fixpoint lstrip (s : pystr) : pystr :=
  match s with
  | [] => []
  | c :: r => if isspace c then lstrip r else s
  end.

Definition rstrip (s : pystr) : pystr := rev (lstrip (rev s)).

(** [s.strip()] with no argument. *)
Definition strip (s : pystr) : pystr := rstrip (lstrip s).

(** [s.startswith(p)]. *)
Fixpoint startswith (s p : pystr) {struct p} : bool :=
  match p, s with
  | [], _ => true
  | _ :: _, [] => false
  | a :: p', b :: s' => (a =? b) && startswith s' p'
  end.

(** [s.lower()]; the script applies it to the ASCII literals [IMAGE] and
    [VIDEO] only, so the ASCII case mapping is all that is needed. *)
Definition lower (s : pystr) : pystr :=
  List.map (fun c => if (65 <=? c) && (c <=? 90) then c + 32 else c) s.

(** [sep.join(l)]. *)
Fixpoint join (sep : pystr) (l : list pystr) : pystr :=
  match l with
  | [] => []
  | [x] => x
  | x :: r => x ++ sep ++ join sep r
  end.

(** [x] occurs in [s] as a contiguous run of characters. *)
Definition substring (x s : pystr) : Prop :=
  exists pre post, s = pre ++ x ++ post.

Fixpoint substringb (x s : pystr) : bool :=
  startswith s x ||
  match s with
  | [] => false
  | _ :: r => substringb x r
  end.

Definition pystr_eqb (a b : pystr) : bool := bool_decide (a = b).

(** ** The input form (script lines 71-103) *)

Record UploadedFile := {
  file_name : pystr;
  file_type : pystr;          (* [uploaded_file.type], the declared MIME type *)
  file_bytes : list N         (* [uploaded_file.read()] *)
}.

Record Inputs := {
  day_number : Z;
  project_title : pystr;
  tech1 : pystr;
  tech2 : pystr;
  tech3 : pystr;
  tech4 : pystr;
  media_type : pystr;                     (* the select box: None, Image or Video *)
  image_uploader : option UploadedFile;   (* what the image uploader holds *)
  video_uploader : option UploadedFile;   (* what the video uploader holds *)
  custom_milestone : pystr;
  custom_skills : pystr;
  custom_next_phase : pystr;
  (* What the text area holds, when it holds something of its own: what the
     user has typed into it, or what Streamlit has kept under the widget's
     key from an earlier run.  [None] is an area that takes its default, the
     generated post.  Whether an area keeps its text over a new generation
     is Streamlit's choice; both cases are inputs here. *)
  edited_text : option pystr
}.

(** [uploaded_file] (script lines 85-97): the file of the uploader that the
    select box has put on the page, if any. *)
Definition chosen_file (media_type : pystr) (image_uploader video_uploader : option UploadedFile)
    : option UploadedFile :=
  if pystr_eqb media_type (py "Image") then image_uploader
  else if pystr_eqb media_type (py "Video") then video_uploader
  else None.

Definition uploaded_file (inp : Inputs) : option UploadedFile :=
  chosen_file (media_type inp) (image_uploader inp) (video_uploader inp).

(** ** The prompt (script lines 116-146) *)

Definition technologies (inp : Inputs) : list pystr :=
  List.filter (fun tech => truthy_str (strip tech))
              [tech1 inp; tech2 inp; tech3 inp; tech4 inp].

Definition tech_string (inp : Inputs) : pystr :=
  join (py " • ") (technologies inp).

Definition prompt (inp : Inputs) : pystr :=
  List.concat [
    nl;
    py "Generate a professional LinkedIn post for a  student at NIAT following this exact format and also don't use ";
      dq; py "**"; dq; py " in the post:"; nl;
    nl;
    py "Day "; str_int (day_number inp); py " |  at NIAT"; nl;
    py "🎯 Milestone Achieved: [Generate an appropriate milestone based on the project]"; nl;
    py "🔧 Project Delivered: "; project_title inp; nl;
    py " [Generate 3 key features/components of this project]"; nl;
    py " [Feature 2]  "; nl;
    py " [Feature 3]"; nl;
    py "⚡ Tech Stack: "; tech_string inp; nl;
    py "📊 Skills Gained: [Generate 4 relevant skills based on the technologies and project]"; nl;
    py "🚀 Next Phase: [Generate next logical step in development journey]"; nl;
    nl;
    py "Building industry-ready developers through hands-on project experience."; nl;
    nl;
    py "#NIAT #ReactJS #FrontendDevelopment #WebDev #TechEducation #StudentSuccess"; nl;
    nl;
    py "Project Details:"; nl;
    py "- Day: "; str_int (day_number inp); nl;
    py "- Project: "; project_title inp; nl;
    py "- Technologies: "; tech_string inp; nl;
    (if truthy_str (custom_milestone inp)
     then py "- Custom Milestone: " ++ custom_milestone inp else []); nl;
    (if truthy_str (custom_skills inp)
     then py "- Additional Skills: " ++ custom_skills inp else []); nl;
    (if truthy_str (custom_next_phase inp)
     then py "- Next Phase: " ++ custom_next_phase inp else []); nl;
    nl;
    py "Make it engaging, professional, and inspiring. Focus on growth, learning, and practical experience."; nl
  ].

#[local] Set Warnings "-register-all".

Arguments prompt : simpl never.

(** ** Values decoded from JSON

    What [response.json()] returns and what is passed as [json=...]:
    [None], booleans, integers, strings, lists and dicts (in insertion order,
    one entry per key).  Floating-point numbers are left out. *)

Inductive json :=
| JNull
| JBool (b : bool)
| JInt (z : Z)
| JStr (s : pystr)
| JArr (l : list json)
| JObj (m : list (pystr * json)).

(** Truth value of a Python object, as [if x:] and [not x] test it. *)
Definition truthy (j : json) : bool :=
  match j with
  | JNull => false
  | JBool b => b
  | JInt z => negb (Z.eqb z 0)
  | JStr s => truthy_str s
  | JArr l => match l with [] => false | _ => true end
  | JObj m => match m with [] => false | _ => true end
  end.

Fixpoint assoc (k : pystr) (m : list (pystr * json)) : option json :=
  match m with
  | [] => None
  | (k', v) :: r => if pystr_eqb k k' then Some v else assoc k r
  end.

(** [repr(s)] for a [str]: quote choice, backslash escapes, and the
    hexadecimal escapes of the code points that [str.isprintable] rejects. *)
Definition hex_digit (n : N) : N := if n <? 10 then 48 + n else 87 + n.

(** The last [width] hexadecimal digits of [c]. *)
Fixpoint hex (width : nat) (c : N) : pystr :=
  match width with
  | O => []
  | S w => hex w (c / 16) ++ [hex_digit (c mod 16)]
  end.

Definition between (lo hi c : N) : bool := (lo <=? c) && (c <=? hi).

(** Code points that [repr] escapes: control characters, separators other
    than the ASCII space, format characters, surrogates and private-use
    code points.  Python also escapes the code points that its version of
    the Unicode database leaves unassigned; those are printed as they are
    here. *)
Definition unprintable (c : N) : bool :=
  (c <? 32) || between 127 160 c || (c =? 173)
  || between 1536 1541 c || (c =? 1564) || (c =? 1757) || (c =? 1807)
  || between 2192 2193 c || (c =? 2274)
  || (c =? 5760) || (c =? 6158)
  || between 8192 8207 c || between 8232 8239 c || between 8287 8303 c
  || (c =? 12288)
  || between 55296 63743 c
  || (c =? 65279) || between 65529 65531 c
  || (c =? 69821) || (c =? 69837) || between 78896 78911 c
  || between 113824 113827 c || between 119155 119162 c
  || (c =? 917505) || between 917536 917631 c
  || between 983040 1114111 c.

Definition repr_char (q : N) (c : N) : pystr :=
  if c =? 92 then [92; 92]
  else if c =? q then [92; q]
  else if c =? 10 then [92; 110]
  else if c =? 13 then [92; 114]
  else if c =? 9 then [92; 116]
  else if unprintable c then
    if c <? 256 then [92; 120] ++ hex 2 c
    else if c <? 65536 then [92; 117] ++ hex 4 c
    else [92; 85] ++ hex 8 c
  else [c].

Definition repr_str (s : pystr) : pystr :=
  let q := if existsb (N.eqb 39) s && negb (existsb (N.eqb 34) s) then 34 else 39 in
  [q] ++ List.concat (List.map (repr_char q) s) ++ [q].

Fixpoint repr_json (j : json) : pystr :=
  match j with
  | JNull => py "None"
  | JBool true => py "True"
  | JBool false => py "False"
  | JInt z => str_int z
  | JStr s => repr_str s
  | JArr l => py "[" ++ join (py ", ") (List.map repr_json l) ++ py "]"
  | JObj m =>
    py "{" ++ join (py ", ")
                (List.map (fun kv => repr_str (fst kv) ++ py ": " ++ repr_json (snd kv)) m)
           ++ py "}"
  end.

(** [str(x)], which is what an f-string field [{x}] inserts. *)
Definition py_str (j : json) : pystr :=
  match j with
  | JStr s => s
  | _ => repr_json j
  end.

(** [type(x).__name__]. *)
Definition type_name (j : json) : pystr :=
  match j with
  | JNull => py "NoneType"
  | JBool _ => py "bool"
  | JInt _ => py "int"
  | JStr _ => py "str"
  | JArr _ => py "list"
  | JObj _ => py "dict"
  end.

(** ** Exceptions, events and the effect monad *)

(** The exception classes the script can meet.  [RequestException] stands for
    [requests.exceptions.RequestException] and all its subclasses
    ([HTTPError], [ConnectionError], [Timeout], [JSONDecodeError], ...), the
    only distinction the handlers make. *)
Inductive exn_class :=
| RequestException
| KeyError
| TypeError
| AttributeError
| UnboundLocalError
| OtherException.

Record exn := Exn { exn_class_of : exn_class; exn_str : pystr (* [str(e)] *) }.

Inductive outcome (A : Type) :=
| Ok (a : A)
| Raise (e : exn).
Arguments Ok {A} a.
Arguments Raise {A} e.

Inductive level := Error | Info | Success | Warning.

(** Arguments of a call to [requests.get] / [requests.post]. *)
Inductive request :=
| GET (url : json) (headers : list (pystr * pystr))
| POST_json (url : json) (headers : list (pystr * pystr)) (body : json)
| POST_data (url : json) (headers : list (pystr * pystr)) (data : list N).

Inductive event :=
| Notice (l : level) (msg : pystr)     (* [st.error], [st.info], [st.success], [st.warning] *)
| Http (r : request)                   (* a call to [requests.get] or [requests.post] *)
| Generate (model : pystr) (p : pystr) (* a call to [generate_content] *)
| Balloons                             (* [st.balloons()] *)
| ShowJson (j : json).                 (* [st.json(result)] *)

(** A computation yields the events it caused and either a value or the
    exception that escaped it. *)
Definition M (A : Type) : Type := list event * outcome A.

Definition ret {A} (a : A) : M A := ([], Ok a).

Definition bind {A B} (c : M A) (k : A -> M B) : M B :=
  match c with
  | (t, Ok a) => let '(t', r) := k a in (t ++ t', r)
  | (t, Raise e) => (t, Raise e)
  end.

Definition raise {A} (c : exn_class) (msg : pystr) : M A := ([], Raise (Exn c msg)).

Definition emit (e : event) : M unit := ([e], Ok tt).

(** [try: body  except <classes accepted by catches> as e: handler e]. *)
Definition try_except {A} (body : M A) (catches : exn_class -> bool) (handler : exn -> M A) : M A :=
  match body with
  | (t, Ok a) => (t, Ok a)
  | (t, Raise e) =>
    if catches (exn_class_of e)
    then let '(t', r) := handler e in (t ++ t', r)
    else (t, Raise e)
  end.

Definition is_RequestException (c : exn_class) : bool :=
  match c with RequestException => true | _ => false end.

(** [except Exception] accepts every class above. *)
Definition is_Exception (c : exn_class) : bool := true.

Declare Scope script_scope.
Delimit Scope script_scope with script.
Notation "x <- c ;; k" := (bind c (fun x => k))
  (at level 100, c at next level, right associativity) : script_scope.
Notation "c ;; k" := (bind c (fun _ => k))
  (at level 100, right associativity) : script_scope.
Local Open Scope script_scope.

Definition trace {A} (c : M A) : list event := fst c.
Definition result {A} (c : M A) : outcome A := snd c.

(** ** The outside world *)

Record response := {
  status_code : Z;
  reason : pystr;
  url : pystr;
  (* the body decoded as JSON, or the text of the decoding error *)
  content : pystr + json
}.

Record env := {
  (* what a call to [requests.get]/[requests.post] does: it returns a
     response, or raises a [RequestException] with the given text before any
     response exists (connection failure, timeout, unusable URL) *)
  send : request -> pystr + response;
  (* what [GenerativeModel(model).generate_content(prompt).text] does: the
     generated text, or the text of the exception raised *)
  generate_content : pystr -> pystr -> pystr + pystr;
  (* what [st.image(uploaded_file, ...)] and [st.video(uploaded_file)] do
     with a file: they put it on the page, or raise the exception with the
     given text ([st.image] decodes the file, and raises for bytes that are
     no image) *)
  st_image : UploadedFile -> pystr + unit;
  st_video : UploadedFile -> pystr + unit
}.

Definition requests (E : env) (r : request) : M response :=
  emit (Http r) ;;
  match send E r with
  | inr resp => ret resp
  | inl msg => raise RequestException msg
  end.

(** The text of the [HTTPError] that [raise_for_status] builds for a 4xx or
    5xx response. *)
Definition http_error (r : response) : option pystr :=
  let s := status_code r in
  if ((400 <=? s) && (s <? 500))%Z
  then Some (str_int s ++ py " Client Error: " ++ reason r ++ py " for url: " ++ url r)
  else if ((500 <=? s) && (s <? 600))%Z
  then Some (str_int s ++ py " Server Error: " ++ reason r ++ py " for url: " ++ url r)
  else None.

(** [response.raise_for_status()]. *)
Definition raise_for_status (r : response) : M unit :=
  match http_error r with
  | Some msg => raise RequestException msg
  | None => ret tt
  end.

(** [response.json()]: [requests.exceptions.JSONDecodeError] is a
    [RequestException]. *)
Definition response_json (r : response) : M json :=
  match content r with
  | inr j => ret j
  | inl msg => raise RequestException msg
  end.

(** [d.get(key, default)].  The texts of the exceptions raised by the
    interpreter are those of CPython 3.12. *)
Definition dict_get (d : json) (key : pystr) (default : json) : M json :=
  match d with
  | JObj m => ret (match assoc key m with Some v => v | None => default end)
  | _ => raise AttributeError
           (py "'" ++ type_name d ++ py "' object has no attribute 'get'")
  end.

(** [d[key]] for a [str] key. *)
Definition subscript (d : json) (key : pystr) : M json :=
  match d with
  | JObj m =>
    match assoc key m with
    | Some v => ret v
    | None => raise KeyError (repr_str key)
    end
  | JArr _ => raise TypeError (py "list indices must be integers or slices, not str")
  | JStr _ => raise TypeError (py "string indices must be integers, not 'str'")
  | _ => raise TypeError (py "'" ++ type_name d ++ py "' object is not subscriptable")
  end.

(** Reading the local variable [response] inside an [except] block: it is
    bound only if the request call of the [try] block returned. *)
Definition local_response (E : env) (r : request) : M response :=
  match send E r with
  | inr resp => ret resp
  | inl _ =>
    raise UnboundLocalError
      (py "cannot access local variable 'response' where it is not associated with a value")
  end.

Definition dict_set (m : list (pystr * json)) (key : pystr) (v : json) : list (pystr * json) :=
  match assoc key m with
  | Some _ => List.map (fun kv => if pystr_eqb key (fst kv) then (fst kv, v) else kv) m
  | None => m ++ [(key, v)]
  end.

(** [a == b] where [b] is a [str] literal. *)
Definition eq_str (a : json) (b : pystr) : bool :=
  match a with
  | JStr s => pystr_eqb s b
  | _ => false
  end.

(** ** LinkedIn API functions (script lines 181-303) *)

Definition userinfo_url : pystr := py "https://api.linkedin.com/v2/userinfo".
Definition register_url : pystr := py "https://api.linkedin.com/v2/assets?action=registerUpload".
Definition post_url : pystr := py "https://api.linkedin.com/v2/ugcPosts".

Definition token_expired_notice : pystr :=
  py "❌ LinkedIn token expired or invalid. Please update your token.".

(** The notice shown for any failed identity request. *)
Definition fetch_error_notice (e : pystr) : pystr := py "Error fetching user info: " ++ e.

(** The call [requests.get(userinfo_url, headers=headers)]. *)
Definition userinfo_request (token : pystr) : request :=
  GET (JStr userinfo_url)
      [(py "Authorization", py "Bearer " ++ strip token);
       (py "Content-Type", py "application/json")].

Definition get_user_urn (E : env) (token : pystr) : M (json * json) :=
  let call := userinfo_request token in
  try_except
    (response <- requests E call ;;
     raise_for_status response ;;
     userinfo_data <- response_json response ;;
     user_name <- dict_get userinfo_data (py "name") (JStr (py "N/A")) ;;
     user_id <- dict_get userinfo_data (py "sub") JNull ;;
     ret (user_id, user_name))
    is_RequestException
    (fun e =>
       emit (Notice Error (fetch_error_notice (exn_str e))) ;;
       response <- local_response E call ;;
       (if (status_code response =? 401)%Z
        then emit (Notice Error token_expired_notice)
        else ret tt) ;;
       ret (JNull, JNull)).

Definition media_category (file_type : pystr) : pystr :=
  if startswith file_type (py "image") then py "IMAGE" else py "VIDEO".

Definition register_data (author_urn : json) (file_type : pystr) : json :=
  JObj [(py "registerUploadRequest", JObj [
    (py "recipes",
       JArr [JStr (py "urn:li:digitalmediaRecipe:feedshare-" ++ lower (media_category file_type))]);
    (py "owner", JStr (py "urn:li:person:" ++ py_str author_urn));
    (py "serviceRelationships", JArr [JObj [
       (py "relationshipType", JStr (py "OWNER"));
       (py "identifier", JStr (py "urn:li:userGeneratedContent"))]])])].

(** The call [requests.post(register_url, headers=headers, json=register_data)]. *)
Definition register_request (token : pystr) (author_urn : json) (file_type : pystr) : request :=
  POST_json (JStr register_url)
            [(py "Authorization", py "Bearer " ++ token);
             (py "Content-Type", py "application/json")]
            (register_data author_urn file_type).

Definition upload_media_to_linkedin (E : env) (token : pystr) (author_urn : json)
    (file_content : list N) (file_type : pystr) : M json :=
  try_except
    ((* Step 1: register upload *)
     response <- requests E (register_request token author_urn file_type) ;;
     raise_for_status response ;;
     register_response <- response_json response ;;
     (* Step 2: upload the actual file *)
     value <- subscript register_response (py "value") ;;
     upload_mechanism <- subscript value (py "uploadMechanism") ;;
     http_request <- subscript upload_mechanism
                       (py "com.linkedin.digitalmedia.uploading.MediaUploadHttpRequest") ;;
     upload_url <- subscript http_request (py "uploadUrl") ;;
     value' <- subscript register_response (py "value") ;;
     asset_id <- subscript value' (py "asset") ;;
     let upload_headers := [(py "Authorization", py "Bearer " ++ token)] in
     upload_response <- requests E (POST_data upload_url upload_headers file_content) ;;
     raise_for_status upload_response ;;
     ret asset_id)
    is_Exception
    (fun e =>
       emit (Notice Error (py "Error uploading media: " ++ exn_str e)) ;;
       ret JNull).

Definition post_headers (token : pystr) : list (pystr * pystr) :=
  [(py "Authorization", py "Bearer " ++ strip token);
   (py "Content-Type", py "application/json");
   (py "X-Restli-Protocol-Version", py "2.0.0")].

Definition media_title (media_type : json) : pystr :=
  if eq_str media_type (py "VIDEO") then py "Project Video" else py "Project Image".

(** The dict [post_data] as it stands when the request is sent. *)
Definition post_data (author_urn : json) (text : pystr) (media_urn media_type : json) : json :=
  (* base post data *)
  let share_content :=
    [(py "shareCommentary", JObj [(py "text", JStr text)]);
     (py "shareMediaCategory", if negb (truthy media_urn) then JStr (py "NONE") else media_type)] in
  (* add media if available *)
  let share_content :=
    if truthy media_urn then
      dict_set
        (dict_set share_content (py "media")
           (JArr [JObj [
              (py "status", JStr (py "READY"));
              (py "description", JObj [(py "text", JStr (py "Project showcase"))]);
              (py "media", media_urn);
              (py "title", JObj [(py "text", JStr (media_title media_type))])]]))
        (py "shareMediaCategory") media_type
    else share_content in
  JObj [
    (py "author", JStr (py "urn:li:person:" ++ py_str author_urn));
    (py "lifecycleState", JStr (py "PUBLISHED"));
    (py "specificContent", JObj [(py "com.linkedin.ugc.ShareContent", JObj share_content)]);
    (py "visibility", JObj [(py "com.linkedin.ugc.MemberNetworkVisibility", JStr (py "PUBLIC"))])].

Definition token_expired_msg : pystr := py "LinkedIn token expired or invalid".
Definition insufficient_permissions_msg : pystr :=
  py "Insufficient permissions. Check your LinkedIn app scopes".

(** The call [requests.post(post_url, headers=headers, json=post_data)]. *)
Definition post_request (token : pystr) (author_urn : json) (text : pystr)
    (media_urn media_type : json) : request :=
  POST_json (JStr post_url) (post_headers token)
            (post_data author_urn text media_urn media_type).

Definition create_linkedin_post_with_media (E : env) (author_urn : json) (text : pystr)
    (token : pystr) (media_urn media_type : json) : M (bool * json) :=
  let call := post_request token author_urn text media_urn media_type in
  try_except
    (response <- requests E call ;;
     raise_for_status response ;;
     body <- response_json response ;;
     ret (true, body))
    is_RequestException
    (fun e =>
       let error_msg := exn_str e in
       response <- local_response E call ;;
       let error_msg :=
         if (status_code response =? 401)%Z then token_expired_msg
         else if (status_code response =? 403)%Z then insufficient_permissions_msg
         else error_msg in
       ret (false, JStr error_msg)).

Arguments userinfo_request : simpl never.
Arguments register_request : simpl never.
Arguments post_request : simpl never.
Arguments post_data : simpl never.
Arguments register_data : simpl never.

(** ** Session state and the button handlers

    [st.session_state] is a dictionary from keys to the strings stored under
    them.  [st.spinner] only decorates the page and is not recorded. *)

Definition model_name : pystr := py "gemini-1.5-flash".

Definition generate (E : env) (model p : pystr) : M pystr :=
  emit (Generate model p) ;;
  match generate_content E model p with
  | inr text => ret text
  | inl msg => raise OtherException msg
  end.

Definition fill_in_notice : pystr :=
  py "❌ Please fill in at least the project title and first technology!".

(** Body of [if st.button("Generate LinkedIn Post")] (script lines 110-160);
    the value is the session state it leaves. *)
Definition generate_handler (E : env) (inp : Inputs) (s : gmap string pystr)
    : M (gmap string pystr) :=
  if negb (truthy_str (project_title inp)) || negb (truthy_str (tech1 inp)) then
    emit (Notice Error fill_in_notice) ;;
    ret s
  else
    try_except
      (generated_post <- generate E model_name (prompt inp) ;;
       let s' := <["generated_post" := generated_post]> s in
       emit (Notice Success (py "✅ Post generated successfully!")) ;;
       ret s')
      is_Exception
      (fun e =>
         emit (Notice Error (py "❌ Error generating post: " ++ exn_str e)) ;;
         emit (Notice Info (py "💡 Try using a different model or check your API quota")) ;;
         ret s).

(** The text area keyed [editable_post] (script lines 163-170): rendered only
    while a generated post is stored, it leaves its content in the session
    state under its key.  The generated post is the area's default only: an
    area that already holds a text ([edited_text]) keeps it, also when a new
    post has been generated since. *)
Definition display (inp : Inputs) (s : gmap string pystr) : gmap string pystr :=
  match s !! "generated_post" with
  | Some generated_post =>
    <["editable_post" := default generated_post (edited_text inp)]> s
  | None => s
  end.

(** The media preview (script lines 173-178): [st.image] for a file of the
    image uploader, [st.video] for one of the video uploader.  An exception
    of either is caught nowhere in the script. *)
Definition media_preview (E : env) (inp : Inputs) : outcome unit :=
  match uploaded_file inp with
  | Some f =>
    if pystr_eqb (media_type inp) (py "Image") then
      match st_image E f with
      | inr _ => Ok tt
      | inl msg => Raise (Exn OtherException msg)
      end
    else if pystr_eqb (media_type inp) (py "Video") then
      match st_video E f with
      | inr _ => Ok tt
      | inl msg => Raise (Exn OtherException msg)
      end
    else Ok tt
  | None => Ok tt
  end.

(** The preview is part of [if 'generated_post' in st.session_state:]
    (script line 162), after the text area. *)
Definition preview (E : env) (inp : Inputs) (s : gmap string pystr) : outcome unit :=
  match s !! "generated_post" with
  | Some _ => media_preview E inp
  | None => Ok tt
  end.

(** [st.session_state.<key>]; the exception text is the beginning of
    Streamlit's. *)
Definition session_attr (s : gmap string pystr) (key : string) : M pystr :=
  match s !! key with
  | Some v => ret v
  | None =>
    raise AttributeError
      (py "st.session_state has no attribute " ++ dq ++ py key ++ dq)
  end.

Definition generate_first_notice : pystr := py "❌ Please generate a post first!".

Definition linkedin_media_type (inp : Inputs) (media_urn : json) : json :=
  match uploaded_file inp with
  | Some f =>
    if truthy media_urn then
      if startswith (file_type f) (py "image") then JStr (py "IMAGE")
      else if startswith (file_type f) (py "video") then JStr (py "VIDEO")
      else JNull
    else JNull
  | None => JNull
  end.

(** Upload media if provided (script lines 322-334); the value is
    [media_urn]. *)
Definition upload_step (E : env) (token : pystr) (user_id : json) (inp : Inputs) : M json :=
  match uploaded_file inp with
  | Some f =>
    emit (Notice Info (py "⬆️ Uploading media...")) ;;
    media_urn <- upload_media_to_linkedin E token user_id (file_bytes f) (file_type f) ;;
    (if truthy media_urn
     then emit (Notice Success (py "✅ Media uploaded successfully!"))
     else emit (Notice Warning (py "⚠️ Media upload failed, posting without media..."))) ;;
    ret media_urn
  | None => ret JNull
  end.

Definition failed_to_publish_notice (result : json) : pystr :=
  py "❌ Failed to publish post: " ++ py_str result.

(** What is shown for [success, result] (script lines 353-359). *)
Definition report (created : bool * json) : M unit :=
  let '(success, result) := created in
  if success : bool then
    emit (Notice Success (py "🎉 Post published successfully to LinkedIn!")) ;;
    emit Balloons ;;
    emit (ShowJson result)
  else
    emit (Notice Error (failed_to_publish_notice result)).

(** Body of [if st.button("Publish Post")] (script lines 312-359). *)
Definition publish_handler (E : env) (token : pystr) (inp : Inputs)
    (s : gmap string pystr) : M unit :=
  match s !! "generated_post" with
  | None => emit (Notice Error generate_first_notice)
  | Some _ =>
    (* get user info *)
    ids <- get_user_urn E token ;;
    let '(user_id, user_name) := ids in
    if truthy user_id then
      emit (Notice Info (py "👤 Posting as: " ++ py_str user_name)) ;;
      media_urn <- upload_step E token user_id inp ;;
      (* create post *)
      text <- session_attr s "editable_post" ;;
      created <- create_linkedin_post_with_media E user_id text token media_urn
                   (linkedin_media_type inp media_urn) ;;
      report created
    else ret tt
  end.

(** Body of [if st.button("Clear & Start Over")] up to [st.rerun()]
    (script lines 364-367). *)
Definition clear_handler (s : gmap string pystr) : gmap string pystr :=
  let keys_to_clear := ["generated_post"; "editable_post"]%string in
  fold_left (fun s key => if decide (is_Some (s !! key)) then delete key s else s)
            keys_to_clear s.

(** ** One user interaction

    Every interaction runs the script top to bottom; at most one button
    reports a click in a run. *)

Inductive action := NoClick | ClickGenerate | ClickPublish | ClickClear.

Record run := {
  session : gmap string pystr;   (* the session state the run leaves *)
  shown : list event;            (* what the run did, in order *)
  ending : outcome unit;         (* [Raise e] when [e] escaped the script *)
  rerun : bool                   (* [st.rerun()] was called *)
}.

(** The page is modelled by what can change the course of a run: headings,
    captions and the widgets themselves leave no event.  The script runs the
    generate handler, then the text area and the media preview, then the
    publish handler and the clear handler (script lines 110, 162-178, 311,
    362); an exception that escapes one part ends the run before the parts
    after it. *)
Definition script_pass (E : env) (token : pystr) (a : action) (inp : Inputs)
    (s : gmap string pystr) : run :=
  let generated :=
    match a with
    | ClickGenerate => generate_handler E inp s
    | _ => ret s
    end in
  match generated with
  | (t1, Raise e) => {| session := s; shown := t1; ending := Raise e; rerun := false |}
  | (t1, Ok s1) =>
    let s2 := display inp s1 in
    match preview E inp s1 with
    | Raise e => {| session := s2; shown := t1; ending := Raise e; rerun := false |}
    | Ok _ =>
      match a with
      | ClickPublish =>
        let '(t2, r) := publish_handler E token inp s2 in
        {| session := s2; shown := t1 ++ t2; ending := r; rerun := false |}
      | ClickClear =>
        {| session := clear_handler s2; shown := t1; ending := Ok tt; rerun := true |}
      | _ => {| session := s2; shown := t1; ending := Ok tt; rerun := false |}
      end
    end
  end.

(** A run, followed by the fresh pass that [st.rerun()] asks for. *)
Definition script_run (E : env) (token : pystr) (a : action) (inp : Inputs)
    (s : gmap string pystr) : run :=
  let r := script_pass E token a inp s in
  if rerun r then
    let r' := script_pass E token NoClick inp (session r) in
    {| session := session r'; shown := shown r ++ shown r';
       ending := ending r'; rerun := rerun r' |}
  else r.

(** The session state after a sequence of interactions, each with the
    outside world as it is at that moment. *)
Fixpoint script_runs (token : pystr) (l : list (env * action * Inputs))
    (s : gmap string pystr) : gmap string pystr :=
  match l with
  | [] => s
  | (E, a, inp) :: l' => script_runs token l' (session (script_run E token a inp s))
  end.

(** Events that reach an external service. *)
Definition external_call (ev : event) : bool :=
  match ev with
  | Http _ | Generate _ _ => true
  | _ => false
  end.

(** [j[k1][k2]...] on dicts, [None] when a key is missing. *)
Fixpoint json_path (ks : list pystr) (j : json) : option json :=
  match ks with
  | [] => Some j
  | k :: ks' =>
    match j with
    | JObj m =>
      match assoc k m with
      | Some v => json_path ks' v
      | None => None
      end
    | _ => None
    end
  end.

(** The [ShareContent] dict of a post-creation body. *)
Definition share_content (body : json) : option json :=
  json_path [py "specificContent"; py "com.linkedin.ugc.ShareContent"] body.

Definition share_field (key : pystr) (body : json) : option json :=
  match share_content body with
  | Some sc => json_path [key] sc
  | None => None
  end.

(** A string made of whitespace only (the empty string included). *)
Definition blank (s : pystr) : bool := forallb isspace s.

(** ** API keys (script lines 21-52) *)

(** [st.secrets[key]] at the top level of the secrets file; [secrets] is
    [None] when there is no secrets file, for which Streamlit raises a
    [FileNotFoundError], recorded under [OtherException]. *)
Definition secrets_get (secrets : option (list (pystr * json))) (key : pystr) : M json :=
  match secrets with
  | Some d => subscript (JObj d) key
  | None => raise OtherException (py "No secrets found.")
  end.

(** [os.getenv(key)]. *)
Definition getenv (environ : gmap pystr pystr) (key : pystr) : json :=
  match environ !! key with
  | Some v => JStr v
  | None => JNull
  end.

(** Streamlit parses the secrets file at the first read of [st.secrets] and
    copies every top-level entry whose value is a string or a number into
    [os.environ], as [str(value)], over a variable of the same name
    ([Secrets._maybe_set_environment_variable]); booleans, arrays and tables
    are not copied.  Of a key written twice the first entry counts, as in
    [assoc]. *)
Definition export_secrets (d : list (pystr * json)) (environ : gmap pystr pystr)
    : gmap pystr pystr :=
  fold_right (fun kv environ =>
                match snd kv with
                | JStr v => <[fst kv := v]> environ
                | JInt n => <[fst kv := str_int n]> environ
                | _ => environ
                end) environ d.

(** [os.environ] once the script has tried to read [st.secrets]. *)
Definition os_environ (secrets : option (list (pystr * json)))
    (environ : gmap pystr pystr) : gmap pystr pystr :=
  match secrets with
  | Some d => export_secrets d environ
  | None => environ
  end.

(** [except (KeyError, FileNotFoundError)]. *)
Definition is_KeyError_or_FileNotFoundError (c : exn_class) : bool :=
  match c with
  | KeyError | OtherException => true
  | _ => false
  end.

Definition get_api_keys (secrets : option (list (pystr * json)))
    (environ : gmap pystr pystr) : M (json * json) :=
  try_except
    ((* try Streamlit secrets first *)
     gemini_api_key <- secrets_get secrets (py "GOOGLE_API_KEY") ;;
     linkedin_token <- secrets_get secrets (py "LINKEDIN_ACCESS_TOKEN") ;;
     ret (gemini_api_key, linkedin_token))
    is_KeyError_or_FileNotFoundError
    (fun _ =>
       (* fallback to environment variables *)
       let environ := os_environ secrets environ in
       let gemini_api_key := getenv environ (py "GOOGLE_API_KEY") in
       let linkedin_token := getenv environ (py "LINKEDIN_ACCESS_TOKEN") in
       ret (gemini_api_key, linkedin_token)).

Definition configure_notice : pystr := py "❌ Please configure your API keys".

Definition setup_help : pystr :=
  List.concat [
    nl;
    py "    **For Streamlit Cloud:**"; nl;
    py "    1. Go to your app settings"; nl;
    py "    2. Add secrets in TOML format:"; nl;
    py "    ```"; nl;
    py "    GOOGLE_API_KEY = "; dq; py "your-gemini-key"; dq; nl;
    py "    LINKEDIN_ACCESS_TOKEN = "; dq; py "your-linkedin-token"; dq; nl;
    py "    ```"; nl;
    py "    "; nl;
    py "    **For Local Development:**"; nl;
    py "    Create `.streamlit/secrets.toml` with the same format"; nl;
    py "    "
  ].

(** Getting and validating the keys (script lines 35-52): [None] when the
    script has called [st.stop()], else the pair
    [gemini_api_key, FIXED_ACCESS_TOKEN]. *)
Definition startup (secrets : option (list (pystr * json)))
    (environ : gmap pystr pystr) : M (option (json * json)) :=
  keys <- get_api_keys secrets environ ;;
  let '(gemini_api_key, FIXED_ACCESS_TOKEN) := keys in
  if negb (truthy gemini_api_key) || negb (truthy FIXED_ACCESS_TOKEN) then
    emit (Notice Error configure_notice) ;;
    emit (Notice Info setup_help) ;;
    ret None
  else ret (Some (gemini_api_key, FIXED_ACCESS_TOKEN)).

(** ** The earlier poster: [src/linkedin_api.py] and [src/ui.py] *)

(** A response together with [res.text], the body as text. *)
Record text_response := {
  head : response;
  text : pystr
}.

Record poster_world := {
  poster_secrets : option (list (pystr * json));
  poster_send : request -> pystr + text_response
}.

Definition poster_requests (W : poster_world) (r : request) : M text_response :=
  emit (Http r) ;;
  match poster_send W r with
  | inr resp => ret resp
  | inl msg => raise RequestException msg
  end.

Definition poster_body (person_urn : json) (text : pystr) : json :=
  JObj [
    (py "author", person_urn);
    (py "lifecycleState", JStr (py "PUBLISHED"));
    (py "specificContent", JObj [(py "com.linkedin.ugc.ShareContent", JObj [
       (py "shareCommentary", JObj [(py "text", JStr text)]);
       (py "shareMediaCategory", JStr (py "NONE"))])]);
    (py "visibility", JObj [(py "com.linkedin.ugc.MemberNetworkVisibility", JStr (py "PUBLIC"))])].

Definition poster_headers (access_token : json) : list (pystr * pystr) :=
  [(py "Authorization", py "Bearer " ++ py_str access_token);
   (py "Content-Type", py "application/json");
   (py "X-Restli-Protocol-Version", py "2.0.0")].

Definition post_to_linkedin (W : poster_world) (text : pystr) : M text_response :=
  linkedin <- secrets_get (poster_secrets W) (py "linkedin") ;;
  access_token <- subscript linkedin (py "access_token") ;;
  linkedin' <- secrets_get (poster_secrets W) (py "linkedin") ;;
  person_urn <- subscript linkedin' (py "person_urn") ;;
  poster_requests W (POST_json (JStr post_url) (poster_headers access_token)
                               (poster_body person_urn text)).

(** [res.ok]: [raise_for_status] would not raise. *)
Definition ok (res : text_response) : bool :=
  match http_error (head res) with
  | Some _ => false
  | None => true
  end.

Definition poster_text (day project techs future : pystr) : pystr :=
  let text := py "Day " ++ day ++ nl ++ nl ++ py "Project: " ++ project
              ++ nl ++ nl ++ py "Tech Stack: " ++ techs in
  if truthy_str future
  then text ++ nl ++ nl ++ py "Upcoming Learning: " ++ future
  else text.

Definition fill_in_fields_notice : pystr :=
  py "Please fill in Day, Project Title, and Technologies.".

(** Body of [if st.button("Post to LinkedIn")] in [main] ([src/ui.py] lines
    13-24). *)
Definition main_handler (W : poster_world) (day project techs future : pystr) : M unit :=
  if negb (truthy_str day && truthy_str project && truthy_str techs) then
    emit (Notice Error fill_in_fields_notice)
  else
    res <- post_to_linkedin W (poster_text day project techs future) ;;
    if ok res then
      emit (Notice Success (py "✅ Posted to LinkedIn successfully!"))
    else
      emit (Notice Error (py "❌ Failed to post. " ++ str_int (status_code (head res))
                          ++ py ": " ++ text res)).

(** ** The calls of a publish run *)

(** The binary upload call of the upload helper. *)
Definition upload_request (token : pystr) (upload_url : json) (file_content : list N) : request :=
  POST_data upload_url [(py "Authorization", py "Bearer " ++ token)] file_content.

(** The four calls that the publish handler and its helpers are written to
    make. *)
Definition publish_call (token : pystr) (q : request) : Prop :=
  q = userinfo_request token
  \/ (exists uid ftype, q = register_request token uid ftype)
  \/ (exists u data, q = upload_request token u data)
  \/ (exists uid text mu mt, q = post_request token uid text mu mt).

(** An event that a publish run may produce: a notice, the balloons, the
    JSON view or one of the four calls, never a call to the text model. *)
Definition publish_event (token : pystr) (ev : event) : Prop :=
  match ev with
  | Http q => publish_call token q
  | Generate _ _ => False
  | _ => True
  end.

(** ** Sample inputs and worlds *)

Definition no_file_inputs (day : Z) (title t1 t2 t3 t4 : pystr) : Inputs :=
  {| day_number := day; project_title := title;
     tech1 := t1; tech2 := t2; tech3 := t3; tech4 := t4;
     media_type := py "None"; image_uploader := None; video_uploader := None;
     custom_milestone := []; custom_skills := []; custom_next_phase := [];
     edited_text := None |}.

Definition todo_inputs : Inputs :=
  no_file_inputs 5 (py "Todo App") (py "React") (py "Node.js") [] [].

(** The second technology is three spaces. *)
Definition spaces_inputs : Inputs :=
  no_file_inputs 5 (py "Todo App") (py "React") (py "   ") [] [].

(** The first technology is one space, the others are empty. *)
Definition space_first_inputs : Inputs :=
  no_file_inputs 5 (py "Todo App") (py " ") [] [] [].

Definition untitled_inputs : Inputs :=
  no_file_inputs 5 [] (py "React") [] [] [].

(** The inputs with the select box on Image and [f] in the image uploader. *)
Definition with_image (inp : Inputs) (f : UploadedFile) : Inputs :=
  {| day_number := day_number inp; project_title := project_title inp;
     tech1 := tech1 inp; tech2 := tech2 inp; tech3 := tech3 inp; tech4 := tech4 inp;
     media_type := py "Image"; image_uploader := Some f; video_uploader := None;
     custom_milestone := custom_milestone inp; custom_skills := custom_skills inp;
     custom_next_phase := custom_next_phase inp;
     edited_text := edited_text inp |}.

(** The inputs with the select box on Video and [f] in the video uploader. *)
Definition with_video (inp : Inputs) (f : UploadedFile) : Inputs :=
  {| day_number := day_number inp; project_title := project_title inp;
     tech1 := tech1 inp; tech2 := tech2 inp; tech3 := tech3 inp; tech4 := tech4 inp;
     media_type := py "Video"; image_uploader := None; video_uploader := Some f;
     custom_milestone := custom_milestone inp; custom_skills := custom_skills inp;
     custom_next_phase := custom_next_phase inp;
     edited_text := edited_text inp |}.

(** [f] attached through the uploader that offers its kind of file. *)
Definition with_file (inp : Inputs) (f : UploadedFile) : Inputs :=
  if startswith (file_type f) (py "image") then with_image inp f else with_video inp f.

Definition png_file : UploadedFile :=
  {| file_name := py "shot.png"; file_type := py "image/png"; file_bytes := [137; 80; 78; 71] |}.

(** A picture of one grey pixel. *)
Definition pixel_png : UploadedFile :=
  {| file_name := py "pixel.png"; file_type := py "image/png";
     file_bytes :=
       [137; 80; 78; 71; 13; 10; 26; 10; 0; 0; 0; 13; 73; 72; 68; 82; 0; 0; 0; 1;
        0; 0; 0; 1; 8; 0; 0; 0; 0; 58; 126; 155; 85; 0; 0; 0; 10; 73; 68; 65; 84;
        120; 218; 99; 96; 0; 0; 0; 2; 0; 1; 229; 39; 222; 252; 0; 0; 0; 0; 73; 69;
        78; 68; 174; 66; 96; 130] |}.

Definition mp4_file : UploadedFile :=
  {| file_name := py "demo.mp4"; file_type := py "video/mp4"; file_bytes := [0; 0; 0; 24] |}.

(** A [.wmv] file whose MIME type the browser did not recognise. *)
Definition wmv_file : UploadedFile :=
  {| file_name := py "demo.wmv"; file_type := py "application/octet-stream";
     file_bytes := [48; 38; 178; 117] |}.

Definition sample_token : pystr := py "AQX-token".

Definition a_response (status : Z) (why : pystr) (at_url : pystr) (body : pystr + json) : response :=
  {| status_code := status; reason := why; url := at_url; content := body |}.

Definition userinfo_ok : response :=
  a_response 200 (py "OK") userinfo_url
    (inr (JObj [(py "sub", JStr (py "abc123")); (py "name", JStr (py "Ada"))])).

Definition sample_upload_url : pystr := py "https://www.linkedin.com/dms-uploads/abc".
Definition sample_asset : json := JStr (py "urn:li:digitalmediaAsset:C5522AQ").

Definition register_ok : response :=
  a_response 200 (py "OK") register_url
    (inr (JObj [(py "value", JObj [
       (py "uploadMechanism", JObj [
          (py "com.linkedin.digitalmedia.uploading.MediaUploadHttpRequest",
           JObj [(py "uploadUrl", JStr sample_upload_url)])]);
       (py "asset", sample_asset)])])).

Definition upload_ok : response :=
  a_response 201 (py "Created") sample_upload_url (inl (py "Expecting value: line 1 column 1 (char 0)")).

Definition post_created : response :=
  a_response 201 (py "Created") post_url
    (inr (JObj [(py "id", JStr (py "urn:li:share:7001"))])).

Definition a_failure (status : Z) (why : pystr) (at_url : pystr) : response :=
  a_response status why at_url (inr (JObj [(py "status", JInt status)])).

(** What the sample worlds' [st.image] does: of the sample files it can
    decode the one-pixel picture only. *)
Definition sample_st_image (f : UploadedFile) : pystr + unit :=
  if bool_decide (file_bytes f = file_bytes pixel_png) then inr tt
  else inl (py "cannot identify image file").

(** A world given by what each of the four endpoints answers. *)
Definition world (userinfo register upload post : pystr + response) : env :=
  {| send := fun r =>
       match r with
       | GET _ _ => userinfo
       | POST_json u _ _ => if eq_str u register_url then register else post
       | POST_data _ _ _ => upload
       end;
     generate_content := fun _ _ => inr (py "Day 5 | at NIAT");
     st_image := sample_st_image;
     st_video := fun _ => inr tt |}.

Definition happy_world : env :=
  world (inr userinfo_ok) (inr register_ok) (inr upload_ok) (inr post_created).

Definition generated_session : gmap string pystr :=
  {[ "generated_post" := py "Day 5 | at NIAT" ]}.

Definition register_down_world : env :=
  world (inr userinfo_ok)
        (inr (a_failure 500 (py "Internal Server Error") register_url))
        (inr upload_ok) (inr post_created).

Definition identity_down_world : env :=
  world (inr (a_failure 500 (py "Internal Server Error") userinfo_url))
        (inr register_ok) (inr upload_ok) (inr post_created).

Definition identity_401_world : env :=
  world (inr (a_failure 401 (py "Unauthorized") userinfo_url))
        (inr register_ok) (inr upload_ok) (inr post_created).

Definition post_401_world : env :=
  world (inr userinfo_ok) (inr register_ok) (inr upload_ok)
        (inr (a_failure 401 (py "Unauthorized") post_url)).

(** 300 Multiple Choices with a JSON body. *)
Definition multiple_choices : response :=
  a_response 300 (py "Multiple Choices") post_url (inr (JObj [(py "choices", JArr [])])).

Definition post_300_world : env :=
  world (inr userinfo_ok) (inr register_ok) (inr upload_ok) (inr multiple_choices).

Definition unauthorized (at_url : pystr) : response :=
  a_failure 401 (py "Unauthorized") at_url.

Definition sample_user : json := JStr (py "abc123").
Definition sample_name : json := JStr (py "Ada").
Definition sample_post : pystr := py "Day 5 | at NIAT".

Definition both_secrets : list (pystr * json) :=
  [(py "GOOGLE_API_KEY", JStr (py "AIza-key"));
   (py "LINKEDIN_ACCESS_TOKEN", JStr sample_token)].

(** A secrets file that defines the LinkedIn token as the empty string. *)
Definition empty_token_secrets : list (pystr * json) :=
  [(py "GOOGLE_API_KEY", JStr (py "AIza-key"));
   (py "LINKEDIN_ACCESS_TOKEN", JStr [])].

(** A secrets file with the Gemini key only. *)
Definition gemini_only_secrets : list (pystr * json) :=
  [(py "GOOGLE_API_KEY", JStr (py "AIza-key"))].

Definition both_environ : gmap pystr pystr :=
  {[ py "GOOGLE_API_KEY" := py "env-key"; py "LINKEDIN_ACCESS_TOKEN" := py "env-token" ]}.

(** The text model is out of quota. *)
Definition quota_world : env :=
  {| send := send happy_world;
     generate_content := fun _ _ => inl (py "429 Resource has been exhausted");
     st_image := st_image happy_world;
     st_video := st_video happy_world |}.

Definition customised_inputs : Inputs :=
  {| day_number := 5; project_title := py "Todo App";
     tech1 := py "React"; tech2 := []; tech3 := py "  "; tech4 := py "Node.js";
     media_type := py "None"; image_uploader := None; video_uploader := None;
     custom_milestone := py "Built the list view";
     custom_skills := py "State Management";
     custom_next_phase := py "Deployment";
     edited_text := None |}.

Definition ok_answer (at_url : pystr) (body : pystr + json) : response :=
  a_response 200 (py "OK") at_url body.

Definition not_json : pystr := py "Expecting value: line 1 column 1 (char 0)".

(** The identity answer has a name and no [sub]. *)
Definition nameless_answer : response :=
  ok_answer userinfo_url (inr (JObj [(py "name", JStr (py "Ada"))])).

(** The identity answer has a [sub] and no name. *)
Definition sub_only_answer : response :=
  ok_answer userinfo_url (inr (JObj [(py "sub", sample_user)])).

Definition no_sub_world : env :=
  world (inr nameless_answer) (inr register_ok) (inr upload_ok) (inr post_created).

Definition sub_only_world : env :=
  world (inr sub_only_answer) (inr register_ok) (inr upload_ok) (inr post_created).

Definition refused : pystr := py "Connection refused".

Definition offline_world : env :=
  world (inl refused) (inl refused) (inl refused) (inl refused).

Definition html_identity_world : env :=
  world (inr (ok_answer userinfo_url (inl not_json)))
        (inr register_ok) (inr upload_ok) (inr post_created).

Definition list_identity_world : env :=
  world (inr (ok_answer userinfo_url (inr (JArr []))))
        (inr register_ok) (inr upload_ok) (inr post_created).

Definition forbidden (at_url : pystr) : response :=
  a_failure 403 (py "Forbidden") at_url.

Definition upload_forbidden_world : env :=
  world (inr userinfo_ok) (inr register_ok) (inr (forbidden sample_upload_url))
        (inr post_created).

Definition register_empty_world : env :=
  world (inr userinfo_ok) (inr (ok_answer register_url (inr (JObj []))))
        (inr upload_ok) (inr post_created).

Definition post_forbidden_world : env :=
  world (inr userinfo_ok) (inr register_ok) (inr upload_ok) (inr (forbidden post_url)).

Definition post_offline_world : env :=
  world (inr userinfo_ok) (inr register_ok) (inr upload_ok) (inl refused).

Definition sample_person : json := JStr (py "urn:li:person:abc123").

Definition poster_secrets_file : list (pystr * json) :=
  [(py "linkedin", JObj [(py "access_token", JStr sample_token);
                         (py "person_urn", sample_person)])].

Definition poster_linkedin : list (pystr * json) :=
  [(py "access_token", JStr sample_token); (py "person_urn", sample_person)].

Definition poster_ok_world : poster_world :=
  {| poster_secrets := Some poster_secrets_file;
     poster_send := fun _ => inr {| head := post_created; text := py "created" |} |}.

Definition poster_forbidden_world : poster_world :=
  {| poster_secrets := Some poster_secrets_file;
     poster_send := fun _ => inr {| head := forbidden post_url; text := py "no scope" |} |}.

Definition poster_bare_world : poster_world :=
  {| poster_secrets := None;
     poster_send := fun _ => inr {| head := post_created; text := py "created" |} |}.

(** Closed goals about sample inputs are settled by evaluation. *)
Ltac evaluate := vm_compute; reflexivity.

(** * Properties *)

(** ** Strings *)

Section Strings.

Lemma substring_refl (x : pystr) : substring x x.
Proof. exists [], []. by rewrite app_nil_r. Qed.

Lemma substring_trans (x y z : pystr) :
  substring x y -> substring y z -> substring x z.
Proof.
  intros (p1 & q1 & ->) (p2 & q2 & ->).
  exists (p2 ++ p1), (q1 ++ q2). by rewrite !app_assoc.
Qed.

Lemma substring_app_l (x a b : pystr) : substring x a -> substring x (a ++ b).
Proof.
  intros (p & q & ->). exists p, (q ++ b). by rewrite !app_assoc.
Qed.

Lemma substring_app_r (x a b : pystr) : substring x b -> substring x (a ++ b).
Proof.
  intros (p & q & ->). exists (a ++ p), q. by rewrite !app_assoc.
Qed.

Lemma substring_concat (x : pystr) (l : list pystr) :
  In x l -> substring x (List.concat l).
Proof.
  induction l as [|y l IH]; simpl; [done|].
  intros [->|Hin].
  - apply substring_app_l, substring_refl.
  - apply substring_app_r, IH, Hin.
Qed.

Lemma substring_join (sep x : pystr) (l : list pystr) :
  In x l -> substring x (join sep l).
Proof.
  induction l as [|y l IH]; [done|].
  intros [->|Hin].
  - destruct l; [apply substring_refl|]. apply substring_app_l, substring_refl.
  - destruct l as [|z l]; [done|].
    change (substring x (y ++ sep ++ join sep (z :: l))).
    apply substring_app_r, substring_app_r, IH, Hin.
Qed.

Lemma startswith_spec (s p : pystr) :
  startswith s p = true <-> exists r, s = p ++ r.
Proof.
  revert s. induction p as [|a p IH]; intros s; simpl.
  - split; [intros _; by exists s | done].
  - destruct s as [|b s].
    + split; [done | intros [r Hr]; discriminate].
    + rewrite andb_true_iff, N.eqb_eq, IH. split.
      * intros [-> [r ->]]. by exists r.
      * intros [r Hr]. injection Hr as -> ->. split; [done | by exists r].
Qed.

Lemma substringb_spec (x s : pystr) :
  substringb x s = true <-> substring x s.
Proof.
  induction s as [|c s IH]; simpl.
  - rewrite orb_false_r, startswith_spec. split.
    + intros [r Hr]. exists [], r. done.
    + intros (p & q & Hpq). destruct p; [|done]. by exists q.
  - rewrite orb_true_iff, startswith_spec, IH. split.
    + intros [[r Hr] | (p & q & ->)].
      * exists [], r. done.
      * exists (c :: p), q. done.
    + intros (p & q & Hpq). destruct p as [|c' p].
      * left. by exists q.
      * right. injection Hpq as -> ->. by exists p, q.
Qed.

Lemma lstrip_blank (s : pystr) : blank s = true -> lstrip s = [].
Proof.
  induction s as [|c s IH]; simpl; [done|].
  rewrite andb_true_iff. intros [-> Hs]. by apply IH.
Qed.

Lemma strip_blank (s : pystr) : blank s = true -> strip s = [].
Proof. intros H. unfold strip. by rewrite lstrip_blank. Qed.

End Strings.

(** ** Generation *)

Section Generation.

Variable E : env.
Variable s : gmap string pystr.

Lemma technologies_strip (inp : Inputs) (tech : pystr) :
  In tech (technologies inp) <->
  In tech [tech1 inp; tech2 inp; tech3 inp; tech4 inp] /\ truthy_str (strip tech) = true.
Proof.
  unfold technologies.
  apply (List.filter_In (fun t => truthy_str (strip t))).
Qed.

Lemma tech_string_in_prompt (inp : Inputs) : substring (tech_string inp) (prompt inp).
Proof. apply substring_concat. unfold In. tauto. Qed.

Lemma substring_concat_slice (l : list pystr) (k n : nat) :
  substring (List.concat (take n (drop k l))) (List.concat l).
Proof.
  rewrite <- (take_drop k l) at 2.
  rewrite <- (take_drop n (drop k l)) at 2.
  rewrite !concat_app.
  by exists (List.concat (take k l)), (List.concat (drop n (drop k l))).
Qed.

(** C5: a draft whose project title is empty or whose first technology is
    empty is rejected with the fill-in error; the handler does nothing else,
    so no call to the text-generation service (or to any other external
    service) is made and the session state is left as it was. *)
Theorem generate_rejects_empty_title_or_tech (inp : Inputs) :
  project_title inp = [] \/ tech1 inp = [] ->
  generate_handler E inp s = ([Notice Error fill_in_notice], Ok s)
  /\ Forall (fun ev => external_call ev = false) (trace (generate_handler E inp s)).
Proof.
  intros H.
  assert (Heq : generate_handler E inp s = ([Notice Error fill_in_notice], Ok s)).
  { unfold generate_handler.
    destruct H as [-> | ->]; simpl; [done|].
    by rewrite orb_true_r. }
  split; [exact Heq|].
  rewrite Heq. simpl. by constructor.
Qed.

(** Once the validation has passed, the text model is called with the
    prompt, whatever it answers. *)
Lemma generate_handler_calls_model (inp : Inputs) :
  truthy_str (project_title inp) = true ->
  truthy_str (tech1 inp) = true ->
  In (Generate model_name (prompt inp)) (trace (generate_handler E inp s)).
Proof.
  intros Ht H1. unfold generate_handler, generate.
  rewrite Ht, H1. simpl.
  destruct (generate_content E model_name (prompt inp)); simpl; by left.
Qed.

(** C6 (amended): for a valid input the prompt contains the day number, the
    project title, and every one of the four technology inputs that has a
    character other than whitespace. *)
Theorem prompt_contains_inputs (inp : Inputs) :
  truthy_str (project_title inp) = true ->
  truthy_str (tech1 inp) = true ->
  substring (str_int (day_number inp)) (prompt inp)
  /\ substring (project_title inp) (prompt inp)
  /\ forall tech,
       In tech [tech1 inp; tech2 inp; tech3 inp; tech4 inp] ->
       truthy_str (strip tech) = true ->
       substring tech (prompt inp).
Proof.
  intros _ _. repeat split.
  - apply substring_concat. unfold In. tauto.
  - apply substring_concat. unfold In. tauto.
  - intros tech Hin Hstrip.
    apply substring_trans with (tech_string inp); [|apply tech_string_in_prompt].
    apply substring_join, technologies_strip. by split.
Qed.

(** C10: a first technology made of whitespace only passes the validation
    (the model is called with the prompt) although the filter drops it from
    the technologies; when the other three inputs are blank as well, the
    tech-stack line of that prompt is empty. *)
Theorem whitespace_first_technology (inp : Inputs) :
  truthy_str (project_title inp) = true ->
  tech1 inp <> [] ->
  blank (tech1 inp) = true ->
  In (Generate model_name (prompt inp)) (trace (generate_handler E inp s))
  /\ ~ In (tech1 inp) (technologies inp)
  /\ (blank (tech2 inp) = true -> blank (tech3 inp) = true -> blank (tech4 inp) = true ->
      tech_string inp = []
      /\ substring (py "⚡ Tech Stack: " ++ nl) (prompt inp)).
Proof.
  intros Ht Hne Hb. split; [|split].
  - apply generate_handler_calls_model; [done|].
    by destruct (tech1 inp).
  - intros [_ Hs]%technologies_strip.
    by rewrite strip_blank in Hs.
  - intros H2 H3 H4.
    assert (Hts : tech_string inp = []).
    { unfold tech_string, technologies. simpl.
      by rewrite !strip_blank. }
    split; [done|].
    unfold prompt.
    match goal with
    | |- substring _ (List.concat ?l) =>
      apply (substring_trans _ (List.concat (take 3 (drop 23 l))));
        [|apply substring_concat_slice]
    end.
    cbn [firstn skipn List.concat].
    rewrite Hts, app_nil_l, app_nil_r.
    apply substring_refl.
Qed.

End Generation.

(** A sample instance of C5: no project title. *)
Lemma generate_rejects_empty_title_or_tech_witness :
  (project_title untitled_inputs = [] \/ tech1 untitled_inputs = [])
  /\ generate_handler happy_world untitled_inputs ∅ = ([Notice Error fill_in_notice], Ok ∅)
  /\ Forall (fun ev => external_call ev = false)
            (trace (generate_handler happy_world untitled_inputs ∅)).
Proof.
  split; [left; reflexivity|].
  apply (generate_rejects_empty_title_or_tech happy_world ∅ untitled_inputs).
  left; reflexivity.
Defined.

(** Counterexample to C6 as stated: the input is valid and its second
    technology, three spaces, is not empty, yet the prompt does not contain
    it. *)
Lemma prompt_omits_whitespace_technology :
  truthy_str (project_title spaces_inputs) = true
  /\ truthy_str (tech1 spaces_inputs) = true
  /\ tech2 spaces_inputs <> []
  /\ ~ substring (tech2 spaces_inputs) (prompt spaces_inputs).
Proof.
  repeat split; [done|].
  intros H%substringb_spec. vm_compute in H. discriminate.
Qed.

(** A sample instance of C6 as amended: day 5, Todo App, React, Node.js. *)
Lemma prompt_contains_inputs_witness :
  truthy_str (project_title todo_inputs) = true
  /\ truthy_str (tech1 todo_inputs) = true
  /\ substring (str_int 5) (prompt todo_inputs)
  /\ substring (py "Todo App") (prompt todo_inputs)
  /\ substring (py "React") (prompt todo_inputs)
  /\ substring (py "Node.js") (prompt todo_inputs).
Proof.
  split; [reflexivity|]. split; [reflexivity|].
  destruct (prompt_contains_inputs todo_inputs eq_refl eq_refl) as (Hd & Ht & Htech).
  split; [exact Hd|]. split; [exact Ht|].
  split; apply Htech; simpl; auto.
Defined.

(** A sample instance of C10: the first technology is one
    space and the other three are empty. *)
Lemma whitespace_first_technology_witness :
  truthy_str (project_title space_first_inputs) = true
  /\ tech1 space_first_inputs <> []
  /\ blank (tech1 space_first_inputs) = true
  /\ In (Generate model_name (prompt space_first_inputs))
        (trace (generate_handler happy_world space_first_inputs ∅))
  /\ tech_string space_first_inputs = [].
Proof.
  split; [reflexivity|]. split; [discriminate|]. split; [reflexivity|].
  destruct (whitespace_first_technology happy_world ∅ space_first_inputs eq_refl)
    as (Hgen & _ & Hline); [discriminate | reflexivity |].
  split; [exact Hgen|].
  apply Hline; reflexivity.
Defined.

(** ** The effect monad *)

Section Effects.

Context {A B : Type}.

Lemma bind_Ok (c : M A) (k : A -> M B) (t : list event) (a : A) :
  c = (t, Ok a) -> bind c k = (t ++ trace (k a), result (k a)).
Proof. intros ->. unfold bind, trace, result. by destruct (k a). Qed.

Lemma bind_Raise (c : M A) (k : A -> M B) (t : list event) (e : exn) :
  c = (t, Raise e) -> bind c k = (t, Raise e).
Proof. by intros ->. Qed.

Lemma try_except_total (body : M A) (catches : exn_class -> bool) (handler : exn -> M A) :
  (forall c, catches c = true) ->
  (forall e, exists a, result (handler e) = Ok a) ->
  exists a, result (try_except body catches handler) = Ok a.
Proof.
  intros Hall Hh. destruct body as [t [a|e]]; simpl; [by exists a|].
  rewrite Hall. destruct (Hh e) as [a Ha].
  destruct (handler e) as [t' r]. simpl in *. by exists a.
Qed.

End Effects.

(** ** The LinkedIn API functions *)

Section Api.

Variable E : env.
Variable token : pystr.

Lemma http_error_iff (r : response) :
  (400 <= status_code r < 600)%Z <-> exists msg, http_error r = Some msg.
Proof.
  unfold http_error.
  destruct (400 <=? status_code r)%Z eqn:H1, (status_code r <? 500)%Z eqn:H2,
           (500 <=? status_code r)%Z eqn:H3, (status_code r <? 600)%Z eqn:H4;
    simpl; (split; [intros H; eauto; lia | intros [msg Hm]; try discriminate; lia]).
Qed.

Lemma http_error_None (r : response) :
  http_error r = None -> ~ (400 <= status_code r < 600)%Z.
Proof.
  intros H Hr. apply http_error_iff in Hr as [msg Hm]. congruence.
Qed.

Lemma http_error_401 (r : response) :
  status_code r = 401%Z ->
  http_error r =
    Some (py "401" ++ py " Client Error: " ++ reason r ++ py " for url: " ++ url r).
Proof. intros H. unfold http_error. by rewrite H. Qed.

(** [except Exception] lets nothing out of the upload helper. *)
Lemma upload_never_raises (author : json) (data : list N) (ftype : pystr) :
  exists v, result (upload_media_to_linkedin E token author data ftype) = Ok v.
Proof.
  unfold upload_media_to_linkedin.
  apply try_except_total; [done|].
  intros e. by exists JNull.
Qed.

(** A registration that gets no response, or a 4xx/5xx one, yields no
    asset identifier. *)
Lemma registration_failure_returns_None (author : json) (data : list N) (ftype : pystr) :
  (match send E (register_request token author ftype) with
   | inl _ => True
   | inr r => (400 <= status_code r < 600)%Z
   end) ->
  result (upload_media_to_linkedin E token author data ftype) = Ok JNull.
Proof.
  unfold upload_media_to_linkedin, requests, raise_for_status.
  destruct (send E (register_request token author ftype)) as [msg|r]; [done|].
  intros [msg Hm]%http_error_iff. simpl. by rewrite Hm.
Qed.

(** The post-creation helper calls the endpoint once and shows nothing. *)
Lemma create_post_trace (author : json) (text : pystr) (mu mt : json) :
  trace (create_linkedin_post_with_media E author text token mu mt)
  = [Http (post_request token author text mu mt)].
Proof.
  unfold create_linkedin_post_with_media, requests, local_response,
    raise_for_status, response_json.
  destruct (send E (post_request token author text mu mt)) as [msg|r]; [done|].
  simpl. destruct (http_error r); simpl; [done|].
  by destruct (content r).
Qed.

Lemma create_post_on_response (author : json) (text : pystr) (mu mt : json) (r : response) :
  send E (post_request token author text mu mt) = inr r ->
  create_linkedin_post_with_media E author text token mu mt =
    ([Http (post_request token author text mu mt)],
     Ok match http_error r with
        | Some msg =>
          (false, JStr (if (status_code r =? 401)%Z then token_expired_msg
                        else if (status_code r =? 403)%Z then insufficient_permissions_msg
                        else msg))
        | None =>
          match content r with
          | inr body => (true, body)
          | inl msg => (false, JStr msg)
          end
        end).
Proof.
  intros H.
  unfold create_linkedin_post_with_media, requests, local_response,
    raise_for_status, response_json.
  rewrite H. simpl. destruct (http_error r) eqn:Hm; simpl; [done|].
  apply http_error_None in Hm.
  destruct (content r); simpl; [|done].
  destruct (Z.eqb_spec (status_code r) 401); [lia|].
  destruct (Z.eqb_spec (status_code r) 403); [lia|done].
Qed.

(** When [requests.post] itself raises, the handler reads the unbound
    local [response] and that error leaves the function. *)
Lemma create_post_without_response (author : json) (text : pystr) (mu mt : json) (msg : pystr) :
  send E (post_request token author text mu mt) = inl msg ->
  exists e, result (create_linkedin_post_with_media E author text token mu mt) = Raise e
            /\ exn_class_of e = UnboundLocalError.
Proof.
  intros H.
  unfold create_linkedin_post_with_media, requests, local_response.
  rewrite H. simpl. eauto.
Qed.

(** The identity helper has the same way out: without a response, the
    fetch-error notice is shown and reading [response] fails. *)
Lemma get_user_urn_without_response (msg : pystr) :
  send E (userinfo_request token) = inl msg ->
  exists e,
    get_user_urn E token
    = ([Http (userinfo_request token); Notice Error (fetch_error_notice msg)], Raise e)
    /\ exn_class_of e = UnboundLocalError.
Proof.
  intros H.
  unfold get_user_urn, requests, local_response.
  rewrite H. simpl. eauto.
Qed.

Lemma get_user_urn_on_http_error (r : response) (msg : pystr) :
  send E (userinfo_request token) = inr r ->
  http_error r = Some msg ->
  get_user_urn E token =
    (Http (userinfo_request token)
       :: Notice Error (fetch_error_notice msg)
       :: (if (status_code r =? 401)%Z then [Notice Error token_expired_notice] else []),
     Ok (JNull, JNull)).
Proof.
  intros H Hm.
  unfold get_user_urn, requests, local_response, raise_for_status.
  rewrite H. simpl. rewrite Hm. simpl.
  by destruct (status_code r =? 401)%Z.
Qed.

End Api.

(** ** Traces *)

Section Traces.

Context {A B : Type}.

Lemma trace_pair (t : list event) (r : outcome A) : trace (t, r) = t.
Proof. reflexivity. Qed.

Lemma trace_bind (c : M A) (k : A -> M B) :
  exists t, trace (bind c k) = trace c ++ t.
Proof.
  destruct c as [t [a|e]]; simpl.
  - destruct (k a) as [t' r]. by exists t'.
  - exists []. by rewrite app_nil_r.
Qed.

Lemma trace_try_except (body : M A) (catches : exn_class -> bool) (handler : exn -> M A) :
  exists t, trace (try_except body catches handler) = trace body ++ t.
Proof.
  destruct body as [t [a|e]]; simpl.
  - exists []. by rewrite app_nil_r.
  - destruct (catches (exn_class_of e)); [|exists []; by rewrite app_nil_r].
    destruct (handler e) as [t' r]. by exists t'.
Qed.

Lemma trace_requests (E : env) (r : request) : trace (requests E r) = [Http r].
Proof. unfold requests. by destruct (send E r). Qed.

End Traces.

(** ** The publish handler *)

Section Publish.

Variable E : env.
Variable token : pystr.

Lemma display_generated (inp : Inputs) (s : gmap string pystr) (g : pystr) :
  s !! "generated_post" = Some g ->
  display inp s !! "generated_post" = Some g
  /\ display inp s !! "editable_post" = Some (default g (edited_text inp)).
Proof.
  intros H. unfold display. rewrite H. split.
  - by rewrite lookup_insert_ne.
  - by rewrite lookup_insert_eq.
Qed.

Lemma display_not_generated (inp : Inputs) (s : gmap string pystr) :
  s !! "generated_post" = None -> display inp s = s.
Proof. intros H. unfold display. by rewrite H. Qed.

Lemma preview_generated (inp : Inputs) (s : gmap string pystr) (g : pystr) :
  s !! "generated_post" = Some g -> preview E inp s = media_preview E inp.
Proof. intros H. unfold preview. by rewrite H. Qed.

Lemma preview_not_generated (inp : Inputs) (s : gmap string pystr) :
  s !! "generated_post" = None -> preview E inp s = Ok tt.
Proof. intros H. unfold preview. by rewrite H. Qed.

Lemma preview_without_file (inp : Inputs) (s : gmap string pystr) :
  uploaded_file inp = None -> preview E inp s = Ok tt.
Proof.
  intros H. unfold preview, media_preview. rewrite H.
  by destruct (s !! "generated_post").
Qed.

(** A publish run whose preview does not raise is the publish handler on
    the session state that the text area leaves. *)
Lemma script_run_publish (inp : Inputs) (s : gmap string pystr) :
  preview E inp s = Ok tt ->
  shown (script_run E token ClickPublish inp s)
  = trace (publish_handler E token inp (display inp s))
  /\ ending (script_run E token ClickPublish inp s)
     = result (publish_handler E token inp (display inp s)).
Proof.
  intros Hp. unfold script_run, script_pass. simpl. rewrite Hp.
  by destruct (publish_handler E token inp (display inp s)).
Qed.

(** A publish run whose preview raises ends there: the publish handler is
    not reached. *)
Lemma script_run_publish_stopped (inp : Inputs) (s : gmap string pystr) (e : exn) :
  preview E inp s = Raise e ->
  script_run E token ClickPublish inp s
  = {| session := display inp s; shown := []; ending := Raise e; rerun := false |}.
Proof. intros Hp. unfold script_run, script_pass. simpl. by rewrite Hp. Qed.

(** The upload helper starts with the registration call. *)
Lemma upload_registers_first (uid : json) (data : list N) (ftype : pystr) :
  exists t, trace (upload_media_to_linkedin E token uid data ftype)
            = Http (register_request token uid ftype) :: t.
Proof.
  unfold upload_media_to_linkedin.
  match goal with
  | |- context [try_except ?b ?c ?h] =>
    destruct (trace_try_except b c h) as [t1 ->]
  end.
  match goal with
  | |- context [trace (bind ?c ?k)] =>
    destruct (trace_bind c k) as [t2 ->]
  end.
  rewrite trace_requests. by exists (t2 ++ t1).
Qed.

Lemma upload_step_file (inp : Inputs) (f : UploadedFile) (uid v : json) :
  uploaded_file inp = Some f ->
  result (upload_media_to_linkedin E token uid (file_bytes f) (file_type f)) = Ok v ->
  upload_step E token uid inp =
    (Notice Info (py "⬆️ Uploading media...")
       :: trace (upload_media_to_linkedin E token uid (file_bytes f) (file_type f))
       ++ [if truthy v
           then Notice Success (py "✅ Media uploaded successfully!")
           else Notice Warning (py "⚠️ Media upload failed, posting without media...")],
     Ok v).
Proof.
  intros Hf Hv. unfold upload_step. rewrite Hf.
  destruct (upload_media_to_linkedin E token uid (file_bytes f) (file_type f)) as [t r].
  simpl in Hv. subst r. simpl. by destruct (truthy v).
Qed.

Lemma upload_step_never_raises (inp : Inputs) (uid : json) :
  exists mu, result (upload_step E token uid inp) = Ok mu.
Proof.
  destruct (uploaded_file inp) as [f|] eqn:Hf.
  - destruct (upload_never_raises E token uid (file_bytes f) (file_type f)) as [v Hv].
    exists v. by rewrite (upload_step_file inp f uid v).
  - exists JNull. unfold upload_step. by rewrite Hf.
Qed.

(** The handler once a post is stored and the identity is resolved: the
    identity call, the upload step, then the post-creation call and its
    report. *)
Lemma publish_handler_identified (inp : Inputs) (s : gmap string pystr)
    (g text : pystr) (uid uname mu : json) :
  s !! "generated_post" = Some g ->
  s !! "editable_post" = Some text ->
  result (get_user_urn E token) = Ok (uid, uname) ->
  truthy uid = true ->
  result (upload_step E token uid inp) = Ok mu ->
  publish_handler E token inp s =
    let c := bind (create_linkedin_post_with_media E uid text token mu
                     (linkedin_media_type inp mu)) report in
    (trace (get_user_urn E token)
       ++ Notice Info (py "👤 Posting as: " ++ py_str uname)
       :: trace (upload_step E token uid inp) ++ trace c,
     result c).
Proof.
  intros Hg He Hid Hu Hmu. unfold publish_handler, session_attr.
  rewrite Hg, He.
  destruct (get_user_urn E token) as [t0 r0]. simpl in Hid. subst r0.
  cbn [bind]. rewrite Hu. cbn [bind emit app].
  destruct (upload_step E token uid inp) as [tu ru]. simpl in Hmu. subst ru.
  cbn [bind ret app trace result fst snd].
  by destruct (bind _ report) as [tc rc].
Qed.

(** At the level of a whole run: the post-creation call is made with the
    text of the text area. *)
Lemma publish_run_identified (inp : Inputs) (s : gmap string pystr)
    (g : pystr) (uid uname mu : json) :
  s !! "generated_post" = Some g ->
  preview E inp s = Ok tt ->
  result (get_user_urn E token) = Ok (uid, uname) ->
  truthy uid = true ->
  result (upload_step E token uid inp) = Ok mu ->
  (forall ev, In ev (trace (upload_step E token uid inp)) ->
              In ev (shown (script_run E token ClickPublish inp s)))
  /\ In (Http (post_request token uid (default g (edited_text inp)) mu
                 (linkedin_media_type inp mu)))
        (shown (script_run E token ClickPublish inp s)).
Proof.
  intros Hg Hp Hid Hu Hmu.
  destruct (display_generated inp s g Hg) as [Hg' He'].
  destruct (script_run_publish inp s Hp) as [-> _].
  rewrite (publish_handler_identified inp _ g _ uid uname mu Hg' He' Hid Hu Hmu).
  cbv zeta. rewrite trace_pair. split.
  - intros ev Hev. rewrite in_app_iff. right. right. rewrite in_app_iff. by left.
  - rewrite in_app_iff. right. right. rewrite in_app_iff. right.
    match goal with
    | |- context [bind ?c ?k] => destruct (trace_bind c k) as [t ->]
    end.
    rewrite create_post_trace. by left.
Qed.

End Publish.

(** ** Media in the post-creation body *)

Section Media.

Variable E : env.
Variable token : pystr.

Lemma image_is_not_video (ftype : pystr) :
  startswith ftype (py "video") = true -> startswith ftype (py "image") = false.
Proof. intros [r ->]%startswith_spec. reflexivity. Qed.

Lemma share_content_without_media (uid : json) (text : pystr) (v mt : json) :
  truthy v = false ->
  share_content (post_data uid text v mt)
  = Some (JObj [(py "shareCommentary", JObj [(py "text", JStr text)]);
                (py "shareMediaCategory", JStr (py "NONE"))]).
Proof. intros Hv. unfold post_data. rewrite Hv. reflexivity. Qed.

Lemma share_content_with_media (uid : json) (text : pystr) (v mt : json) :
  truthy v = true ->
  share_content (post_data uid text v mt)
  = Some (JObj [(py "shareCommentary", JObj [(py "text", JStr text)]);
                (py "shareMediaCategory", mt);
                (py "media", JArr [JObj [
                   (py "status", JStr (py "READY"));
                   (py "description", JObj [(py "text", JStr (py "Project showcase"))]);
                   (py "media", v);
                   (py "title", JObj [(py "text", JStr (media_title mt))])]])]).
Proof. intros Hv. unfold post_data. rewrite Hv. reflexivity. Qed.

(** C1: in a publish run that gets past the media preview, when a file is
    attached and the upload helper returns no asset identifier, the run
    shows the warning and still makes the post-creation call; the
    ShareContent of its body is the text and the category [NONE], with no
    [media] entry. *)
Theorem failed_upload_posts_without_media (inp : Inputs) (s : gmap string pystr)
    (g : pystr) (f : UploadedFile) (uid uname v : json) :
  s !! "generated_post" = Some g ->
  uploaded_file inp = Some f ->
  media_preview E inp = Ok tt ->
  result (get_user_urn E token) = Ok (uid, uname) ->
  truthy uid = true ->
  result (upload_media_to_linkedin E token uid (file_bytes f) (file_type f)) = Ok v ->
  truthy v = false ->
  exists body,
    In (Http (POST_json (JStr post_url) (post_headers token) body))
       (shown (script_run E token ClickPublish inp s))
    /\ share_content body
       = Some (JObj [(py "shareCommentary",
                      JObj [(py "text", JStr (default g (edited_text inp)))]);
                     (py "shareMediaCategory", JStr (py "NONE"))])
    /\ share_field (py "media") body = None
    /\ share_field (py "shareMediaCategory") body = Some (JStr (py "NONE"))
    /\ In (Notice Warning (py "⚠️ Media upload failed, posting without media..."))
          (shown (script_run E token ClickPublish inp s)).
Proof.
  intros Hg Hf Hshow Hid Hu Hv Hfalsy.
  assert (Hp : preview E inp s = Ok tt) by by rewrite (preview_generated E inp s g Hg).
  pose proof (upload_step_file E token inp f uid v Hf Hv) as Hstep.
  assert (Hmu : result (upload_step E token uid inp) = Ok v) by by rewrite Hstep.
  destruct (publish_run_identified E token inp s g uid uname v Hg Hp Hid Hu Hmu)
    as [Hsub Hpost].
  exists (post_data uid (default g (edited_text inp)) v (linkedin_media_type inp v)).
  split; [exact Hpost|].
  unfold share_field. rewrite share_content_without_media by done.
  repeat split.
  apply Hsub. rewrite Hstep, trace_pair, Hfalsy.
  right. rewrite in_app_iff. right. by left.
Qed.

(** C2: in a publish run that gets past the media preview, when a file is
    attached and the upload helper returns an asset identifier, the
    post-creation call is made with a body whose category
    is [IMAGE] for a MIME type starting with [image] and [VIDEO] for one
    starting with [video], and whose media block holds the asset and the
    title [Project Image], respectively [Project Video]. *)
Theorem successful_upload_posts_media (inp : Inputs) (s : gmap string pystr)
    (g : pystr) (f : UploadedFile) (uid uname v : json) (category title : pystr) :
  s !! "generated_post" = Some g ->
  uploaded_file inp = Some f ->
  media_preview E inp = Ok tt ->
  result (get_user_urn E token) = Ok (uid, uname) ->
  truthy uid = true ->
  result (upload_media_to_linkedin E token uid (file_bytes f) (file_type f)) = Ok v ->
  truthy v = true ->
  (startswith (file_type f) (py "image") = true
     /\ category = py "IMAGE" /\ title = py "Project Image")
  \/ (startswith (file_type f) (py "video") = true
     /\ category = py "VIDEO" /\ title = py "Project Video") ->
  exists body,
    In (Http (POST_json (JStr post_url) (post_headers token) body))
       (shown (script_run E token ClickPublish inp s))
    /\ share_field (py "shareMediaCategory") body = Some (JStr category)
    /\ share_field (py "media") body
       = Some (JArr [JObj [
            (py "status", JStr (py "READY"));
            (py "description", JObj [(py "text", JStr (py "Project showcase"))]);
            (py "media", v);
            (py "title", JObj [(py "text", JStr title)])]]).
Proof.
  intros Hg Hf Hshow Hid Hu Hv Htruthy Htype.
  assert (Hp : preview E inp s = Ok tt) by by rewrite (preview_generated E inp s g Hg).
  pose proof (upload_step_file E token inp f uid v Hf Hv) as Hstep.
  assert (Hmu : result (upload_step E token uid inp) = Ok v) by by rewrite Hstep.
  destruct (publish_run_identified E token inp s g uid uname v Hg Hp Hid Hu Hmu)
    as [_ Hpost].
  exists (post_data uid (default g (edited_text inp)) v (linkedin_media_type inp v)).
  split; [exact Hpost|].
  unfold share_field. rewrite share_content_with_media by done.
  unfold linkedin_media_type. rewrite Hf, Htruthy.
  destruct Htype as [(Hi & -> & ->) | (Hvid & -> & ->)].
  - rewrite Hi. by split.
  - rewrite (image_is_not_video _ Hvid), Hvid. by split.
Qed.

(** C9: in a publish run that gets past the media preview, a file whose
    MIME type starts with neither [image] nor [video] is registered as a
    video (the recipe is [feedshare-video]); if its upload
    returns an asset identifier, the post-creation body has the category
    [None] (JSON null, not a string) and a media block titled
    [Project Image]. *)
Theorem other_mime_type_posts_null_category (inp : Inputs) (s : gmap string pystr)
    (g : pystr) (f : UploadedFile) (uid uname : json) :
  s !! "generated_post" = Some g ->
  uploaded_file inp = Some f ->
  media_preview E inp = Ok tt ->
  startswith (file_type f) (py "image") = false ->
  startswith (file_type f) (py "video") = false ->
  result (get_user_urn E token) = Ok (uid, uname) ->
  truthy uid = true ->
  media_category (file_type f) = py "VIDEO"
  /\ In (Http (register_request token uid (file_type f)))
        (shown (script_run E token ClickPublish inp s))
  /\ json_path [py "registerUploadRequest"; py "recipes"]
               (register_data uid (file_type f))
     = Some (JArr [JStr (py "urn:li:digitalmediaRecipe:feedshare-video")])
  /\ forall v,
       result (upload_media_to_linkedin E token uid (file_bytes f) (file_type f)) = Ok v ->
       truthy v = true ->
       exists body,
         In (Http (POST_json (JStr post_url) (post_headers token) body))
            (shown (script_run E token ClickPublish inp s))
         /\ share_field (py "shareMediaCategory") body = Some JNull
         /\ share_field (py "media") body
            = Some (JArr [JObj [
                 (py "status", JStr (py "READY"));
                 (py "description", JObj [(py "text", JStr (py "Project showcase"))]);
                 (py "media", v);
                 (py "title", JObj [(py "text", JStr (py "Project Image"))])]]).
Proof.
  intros Hg Hf Hshow Hi Hvid Hid Hu.
  assert (Hp : preview E inp s = Ok tt) by by rewrite (preview_generated E inp s g Hg).
  assert (Hcat : media_category (file_type f) = py "VIDEO").
  { unfold media_category. by rewrite Hi. }
  destruct (upload_never_raises E token uid (file_bytes f) (file_type f)) as [v0 Hv0].
  pose proof (upload_step_file E token inp f uid v0 Hf Hv0) as Hstep0.
  assert (Hmu0 : result (upload_step E token uid inp) = Ok v0) by by rewrite Hstep0.
  destruct (publish_run_identified E token inp s g uid uname v0 Hg Hp Hid Hu Hmu0)
    as [Hsub _].
  split; [exact Hcat|]. split; [|split].
  - apply Hsub. rewrite Hstep0, trace_pair.
    destruct (upload_registers_first E token uid (file_bytes f) (file_type f)) as [t ->].
    right. by left.
  - unfold register_data. rewrite Hcat. reflexivity.
  - intros v Hv Htruthy.
    assert (v0 = v) as -> by congruence.
    destruct (publish_run_identified E token inp s g uid uname v Hg Hp Hid Hu Hmu0)
      as [_ Hpost].
    exists (post_data uid (default g (edited_text inp)) v (linkedin_media_type inp v)).
    split; [exact Hpost|].
    unfold share_field. rewrite share_content_with_media by done.
    unfold linkedin_media_type. rewrite Hf, Htruthy, Hi, Hvid. by split.
Qed.

End Media.

(** ** Failures of the identity and post-creation calls *)

Section Failures.

Variable E : env.
Variable token : pystr.

Lemma publish_run_identity_error (inp : Inputs) (s : gmap string pystr) (g : pystr)
    (r : response) (msg : pystr) :
  s !! "generated_post" = Some g ->
  preview E inp s = Ok tt ->
  send E (userinfo_request token) = inr r ->
  http_error r = Some msg ->
  shown (script_run E token ClickPublish inp s)
  = Http (userinfo_request token)
      :: Notice Error (fetch_error_notice msg)
      :: (if (status_code r =? 401)%Z then [Notice Error token_expired_notice] else [])
  /\ ending (script_run E token ClickPublish inp s) = Ok tt.
Proof.
  intros Hg Hp Hr Hm.
  destruct (display_generated inp s g Hg) as [Hg' _].
  destruct (script_run_publish E token inp s Hp) as [-> ->].
  unfold publish_handler. rewrite Hg'.
  rewrite (get_user_urn_on_http_error E token r msg Hr Hm). simpl.
  by rewrite app_nil_r.
Qed.

(** C4 (amended): when the identity endpoint answers with a 4xx or 5xx
    status, a publish run that gets past the media preview consists of the
    identity call and the fetch-error
    notice, followed by the token-expired notice exactly when the status is
    401; it ends normally, and no registration, upload or post-creation
    call is made. *)
Theorem identity_error_aborts_publish (inp : Inputs) (s : gmap string pystr) (g : pystr)
    (r : response) :
  s !! "generated_post" = Some g ->
  media_preview E inp = Ok tt ->
  send E (userinfo_request token) = inr r ->
  (400 <= status_code r < 600)%Z ->
  exists msg,
    http_error r = Some msg
    /\ shown (script_run E token ClickPublish inp s)
       = Http (userinfo_request token)
           :: Notice Error (fetch_error_notice msg)
           :: (if (status_code r =? 401)%Z then [Notice Error token_expired_notice] else [])
    /\ ending (script_run E token ClickPublish inp s) = Ok tt
    /\ (forall q, In (Http q) (shown (script_run E token ClickPublish inp s)) ->
                  q = userinfo_request token)
    /\ (In (Notice Error token_expired_notice) (shown (script_run E token ClickPublish inp s))
        <-> status_code r = 401%Z).
Proof.
  intros Hg Hshow Hr [msg Hm]%http_error_iff. exists msg.
  assert (Hp : preview E inp s = Ok tt) by by rewrite (preview_generated E inp s g Hg).
  destruct (publish_run_identity_error inp s g r msg Hg Hp Hr Hm) as [Hs He].
  split; [done|]. split; [done|]. split; [done|]. rewrite Hs. split.
  - intros q [Hq | [Hq | Hq]]; [congruence | discriminate |].
    destruct (status_code r =? 401)%Z; simpl in Hq; [|done].
    by destruct Hq.
  - destruct (Z.eqb_spec (status_code r) 401) as [H401|H401]; split; try done.
    + intros _. right. right. by left.
    + intros [Hq | [Hq | []]]; [discriminate|].
      assert (Hne : fetch_error_notice msg <> token_expired_notice).
      { intros Heq. apply (f_equal (take 1)) in Heq.
        vm_compute in Heq. discriminate. }
      congruence.
Qed.

(** C3 (amended): in a publish run that gets past the media preview, a
    401 always brings the token-expired message to the user.  From the
    identity endpoint the run shows the fetch-error notice
    and then the token-expired notice; from the post-creation endpoint the
    helper returns the token-expired message in place of the error text
    and the run ends with the failure notice carrying it. *)
Theorem unauthorized_shows_token_expired (inp : Inputs) (s : gmap string pystr)
    (g : pystr) (r : response) :
  s !! "generated_post" = Some g ->
  media_preview E inp = Ok tt ->
  status_code r = 401%Z ->
  (send E (userinfo_request token) = inr r ->
   shown (script_run E token ClickPublish inp s)
   = [Http (userinfo_request token);
      Notice Error (fetch_error_notice
        (py "401" ++ py " Client Error: " ++ reason r ++ py " for url: " ++ url r));
      Notice Error token_expired_notice])
  /\ (forall uid uname mu,
        result (get_user_urn E token) = Ok (uid, uname) ->
        truthy uid = true ->
        result (upload_step E token uid inp) = Ok mu ->
        let call := post_request token uid (default g (edited_text inp)) mu
                      (linkedin_media_type inp mu) in
        send E call = inr r ->
        create_linkedin_post_with_media E uid (default g (edited_text inp)) token mu
          (linkedin_media_type inp mu)
        = ([Http call], Ok (false, JStr token_expired_msg))
        /\ exists t,
             shown (script_run E token ClickPublish inp s)
             = t ++ [Http call;
                     Notice Error (py "❌ Failed to publish post: " ++ token_expired_msg)]).
Proof.
  intros Hg Hshow H401.
  assert (Hp : preview E inp s = Ok tt) by by rewrite (preview_generated E inp s g Hg).
  split.
  - intros Hr.
    destruct (publish_run_identity_error inp s g r _ Hg Hp Hr (http_error_401 r H401))
      as [-> _].
    by rewrite H401.
  - intros uid uname mu Hid Hu Hmu call Hr.
    assert (Hc : create_linkedin_post_with_media E uid (default g (edited_text inp))
                   token mu (linkedin_media_type inp mu)
                 = ([Http call], Ok (false, JStr token_expired_msg))).
    { rewrite (create_post_on_response E token uid _ mu _ r Hr).
      rewrite (http_error_401 r H401). rewrite H401. reflexivity. }
    split; [exact Hc|].
    destruct (display_generated inp s g Hg) as [Hg' He'].
    destruct (script_run_publish E token inp s Hp) as [-> _].
    rewrite (publish_handler_identified E token inp _ g _ uid uname mu Hg' He' Hid Hu Hmu).
    cbv zeta. rewrite trace_pair.
    rewrite (bind_Ok _ report _ _ Hc). rewrite trace_pair.
    eexists. rewrite app_comm_cons, app_assoc. reflexivity.
Qed.

(** C7 (amended): what the post-creation helper returns once the endpoint
    has answered.  A status outside 400-599 gives success with the decoded
    body, or failure with the decoder's text when the body is not JSON; a
    4xx or 5xx status gives failure with the token message for 401, the
    permissions message for 403 and the error text otherwise.  In all of
    these the helper returns a pair. *)
Theorem post_creation_result (author : json) (text : pystr) (mu mt : json) (r : response) :
  send E (post_request token author text mu mt) = inr r ->
  let created := create_linkedin_post_with_media E author text token mu mt in
  (exists success answer, created =
     ([Http (post_request token author text mu mt)], Ok (success, answer)))
  /\ (~ (400 <= status_code r < 600)%Z ->
      forall body, content r = inr body -> result created = Ok (true, body))
  /\ (~ (400 <= status_code r < 600)%Z ->
      forall msg, content r = inl msg -> result created = Ok (false, JStr msg))
  /\ ((400 <= status_code r < 600)%Z ->
      exists msg,
        http_error r = Some msg
        /\ result created
           = Ok (false,
                 JStr (if (status_code r =? 401)%Z then token_expired_msg
                       else if (status_code r =? 403)%Z then insufficient_permissions_msg
                       else msg))).
Proof.
  intros Hr created. subst created.
  rewrite (create_post_on_response E token author text mu mt r Hr).
  unfold result. cbn [snd].
  destruct (http_error r) as [m|] eqn:Hm.
  - assert (Hs : (400 <= status_code r < 600)%Z) by (apply http_error_iff; eauto).
    split; [by eexists _, _|].
    split; [intros Hn; by destruct Hn|].
    split; [intros Hn; by destruct Hn|].
    intros _. by exists m.
  - apply http_error_None in Hm.
    split; [destruct (content r); by eexists _, _|].
    split; [by intros _ body ->|].
    split; [by intros _ msg ->|].
    intros Hs. by destruct Hm.
Qed.

End Failures.

(** ** Clearing the session *)

Section Clearing.

Variable token : pystr.

Lemma clear_handler_generated (s : gmap string pystr) :
  clear_handler s !! "generated_post" = None.
Proof.
  unfold clear_handler. simpl.
  destruct (decide (is_Some (s !! "generated_post"))) as [H|H].
  - case_decide; [rewrite lookup_delete_ne by done|]; apply lookup_delete_eq.
  - apply eq_None_not_Some in H.
    case_decide; [rewrite lookup_delete_ne by done|]; exact H.
Qed.

(** A run with the clear button that gets past the preview: the handler,
    then the fresh pass, which finds no generated post. *)
Lemma script_run_clear (E : env) (inp : Inputs) (s : gmap string pystr) :
  preview E inp s = Ok tt ->
  script_run E token ClickClear inp s
  = {| session := clear_handler (display inp s); shown := []; ending := Ok tt;
       rerun := false |}.
Proof.
  intros Hp. unfold script_run, script_pass. cbn [ret]. rewrite Hp.
  cbn [rerun session shown ending].
  rewrite (preview_not_generated E inp _ (clear_handler_generated (display inp s))).
  by rewrite display_not_generated by apply clear_handler_generated.
Qed.

(** Only the generate button stores a generated post. *)
Lemma script_run_keeps_cleared (E : env) (a : action) (inp : Inputs)
    (s : gmap string pystr) :
  a <> ClickGenerate ->
  s !! "generated_post" = None ->
  session (script_run E token a inp s) !! "generated_post" = None.
Proof.
  intros Ha Hs. pose proof (preview_not_generated E inp s Hs) as Hp.
  destruct a; [| done | |].
  - unfold script_run, script_pass. cbn [ret]. rewrite Hp. cbn.
    by rewrite display_not_generated.
  - unfold script_run, script_pass. cbn [ret]. rewrite Hp.
    destruct (publish_handler E token inp (display inp s)). cbn.
    by rewrite display_not_generated.
  - rewrite (script_run_clear E inp s Hp). cbn [session].
    apply clear_handler_generated.
Qed.

Lemma script_runs_keep_cleared (later : list (env * action * Inputs))
    (s : gmap string pystr) :
  Forall (fun step => snd (fst step) <> ClickGenerate) later ->
  s !! "generated_post" = None ->
  script_runs token later s !! "generated_post" = None.
Proof.
  intros Hl. revert s.
  induction Hl as [|[[E a] inp] later Ha _ IH]; intros s Hs; [exact Hs|].
  simpl. apply IH. by apply script_run_keeps_cleared.
Qed.

Lemma publish_without_generated_post (E : env) (inp : Inputs) (s : gmap string pystr) :
  s !! "generated_post" = None ->
  shown (script_run E token ClickPublish inp s) = [Notice Error generate_first_notice]
  /\ ending (script_run E token ClickPublish inp s) = Ok tt.
Proof.
  intros Hs.
  destruct (script_run_publish E token inp s (preview_not_generated E inp s Hs))
    as [-> ->].
  rewrite display_not_generated by done.
  unfold publish_handler. by rewrite Hs.
Qed.

(** C8: a run with the clear button that gets past the media preview
    leaves no generated post in the session state; after any further
    interactions that do not press the generate button, pressing publish
    shows the generate-first error and nothing else, so no external call is
    made. *)
Theorem publish_after_clear_is_rejected (E0 : env) (inp0 : Inputs)
    (s : gmap string pystr) (later : list (env * action * Inputs))
    (E : env) (inp : Inputs) :
  preview E0 inp0 s = Ok tt ->
  Forall (fun step => snd (fst step) <> ClickGenerate) later ->
  let cleared := session (script_run E0 token ClickClear inp0 s) in
  let s' := script_runs token later cleared in
  cleared !! "generated_post" = None
  /\ shown (script_run E token ClickPublish inp s') = [Notice Error generate_first_notice]
  /\ ending (script_run E token ClickPublish inp s') = Ok tt
  /\ Forall (fun ev => external_call ev = false)
            (shown (script_run E token ClickPublish inp s')).
Proof.
  intros Hp Hl cleared s'.
  assert (Hc : cleared !! "generated_post" = None).
  { subst cleared. rewrite (script_run_clear E0 inp0 s Hp). cbn [session].
    apply clear_handler_generated. }
  assert (Hs' : s' !! "generated_post" = None)
    by by apply script_runs_keep_cleared.
  destruct (publish_without_generated_post E inp s' Hs') as [Hshown Hend].
  split; [done|]. split; [done|]. split; [done|].
  rewrite Hshown. by constructor.
Qed.

End Clearing.

(** ** The theorems at sample inputs *)

(** A sample instance of C1: a picture that the preview can show is
    attached and the registration endpoint answers 500. *)
Lemma failed_upload_posts_without_media_witness :
  media_preview register_down_world (with_file todo_inputs pixel_png) = Ok tt
  /\ result (upload_media_to_linkedin register_down_world sample_token sample_user
               (file_bytes pixel_png) (file_type pixel_png)) = Ok JNull
  /\ exists body,
       In (Http (POST_json (JStr post_url) (post_headers sample_token) body))
          (shown (script_run register_down_world sample_token ClickPublish
                    (with_file todo_inputs pixel_png) generated_session))
       /\ share_field (py "media") body = None
       /\ share_field (py "shareMediaCategory") body = Some (JStr (py "NONE")).
Proof.
  split; [evaluate|]. split; [evaluate|].
  destruct (failed_upload_posts_without_media register_down_world sample_token
              (with_file todo_inputs pixel_png) generated_session sample_post pixel_png
              sample_user sample_name JNull)
    as (body & Hin & _ & Hmedia & Hcat & _);
    [evaluate | evaluate | evaluate | evaluate | evaluate | evaluate | evaluate |].
  exists body. auto.
Defined.

(** A sample instance of C2: a video is attached and every endpoint
    answers well. *)
Lemma successful_upload_posts_media_witness :
  exists body,
    In (Http (POST_json (JStr post_url) (post_headers sample_token) body))
       (shown (script_run happy_world sample_token ClickPublish
                 (with_file todo_inputs mp4_file) generated_session))
    /\ share_field (py "shareMediaCategory") body = Some (JStr (py "VIDEO"))
    /\ share_field (py "media") body
       = Some (JArr [JObj [
            (py "status", JStr (py "READY"));
            (py "description", JObj [(py "text", JStr (py "Project showcase"))]);
            (py "media", sample_asset);
            (py "title", JObj [(py "text", JStr (py "Project Video"))])]]).
Proof.
  apply (successful_upload_posts_media happy_world sample_token
           (with_file todo_inputs mp4_file) generated_session sample_post mp4_file
           sample_user sample_name sample_asset);
    [evaluate | evaluate | evaluate | evaluate | evaluate | evaluate | evaluate |].
  right. repeat split; evaluate.
Defined.

(** A sample instance of C9: a [.wmv] file declared
    as [application/octet-stream]. *)
Lemma other_mime_type_posts_null_category_witness :
  media_category (file_type wmv_file) = py "VIDEO"
  /\ exists body,
       In (Http (POST_json (JStr post_url) (post_headers sample_token) body))
          (shown (script_run happy_world sample_token ClickPublish
                    (with_file todo_inputs wmv_file) generated_session))
       /\ share_field (py "shareMediaCategory") body = Some JNull.
Proof.
  destruct (other_mime_type_posts_null_category happy_world sample_token
              (with_file todo_inputs wmv_file) generated_session sample_post wmv_file
              sample_user sample_name)
    as (Hcat & _ & _ & Hpost);
    [evaluate | evaluate | evaluate | evaluate | evaluate | evaluate | evaluate |].
  split; [exact Hcat|].
  destruct (Hpost sample_asset) as (body & Hin & Hnull & _); [evaluate | evaluate |].
  exists body. auto.
Defined.

(** Counterexample to C4 as stated: the identity endpoint answers 500, a
    non-2xx status; the run shows the fetch-error notice only, and no
    token-expired notice. *)
Lemma identity_server_error_shows_no_token_notice :
  generated_session !! "generated_post" = Some sample_post
  /\ send identity_down_world (userinfo_request sample_token)
     = inr (a_failure 500 (py "Internal Server Error") userinfo_url)
  /\ shown (script_run identity_down_world sample_token ClickPublish
              todo_inputs generated_session)
     = [Http (userinfo_request sample_token);
        Notice Error (py "Error fetching user info: 500 Server Error: Internal Server Error for url: https://api.linkedin.com/v2/userinfo")]
  /\ ~ In (Notice Error token_expired_notice)
          (shown (script_run identity_down_world sample_token ClickPublish
                    todo_inputs generated_session)).
Proof.
  split; [evaluate|]. split; [evaluate|]. split; [evaluate|].
  vm_compute. intros [H | [H | []]]; discriminate.
Qed.

(** A sample instance of C4 as amended: the identity endpoint answers
    401. *)
Lemma identity_error_aborts_publish_witness :
  shown (script_run identity_401_world sample_token ClickPublish
           todo_inputs generated_session)
  = [Http (userinfo_request sample_token);
     Notice Error (py "Error fetching user info: 401 Client Error: Unauthorized for url: https://api.linkedin.com/v2/userinfo");
     Notice Error token_expired_notice].
Proof.
  destruct (identity_error_aborts_publish identity_401_world sample_token
              todo_inputs generated_session sample_post (unauthorized userinfo_url))
    as (msg & Hmsg & Hshown & _);
    [evaluate | evaluate | evaluate | vm_compute; by split |].
  rewrite Hshown. vm_compute in Hmsg. injection Hmsg as <-. evaluate.
Defined.

(** Counterexample to C3 as stated: for a 401 from the identity endpoint the
    run shows the same fetch-error notice that it shows for a 500. *)
Lemma identity_unauthorized_shows_fetch_error :
  In (Notice Error (fetch_error_notice
        (py "401 Client Error: Unauthorized for url: https://api.linkedin.com/v2/userinfo")))
     (shown (script_run identity_401_world sample_token ClickPublish
               todo_inputs generated_session))
  /\ In (Notice Error (fetch_error_notice
        (py "500 Server Error: Internal Server Error for url: https://api.linkedin.com/v2/userinfo")))
     (shown (script_run identity_down_world sample_token ClickPublish
               todo_inputs generated_session)).
Proof.
  split; vm_compute; right; left; reflexivity.
Qed.

(** A sample instance of C3 as amended: a 401 from the identity
    endpoint, and a 401 from the post-creation endpoint. *)
Lemma unauthorized_shows_token_expired_witness :
  In (Notice Error token_expired_notice)
     (shown (script_run identity_401_world sample_token ClickPublish
               todo_inputs generated_session))
  /\ create_linkedin_post_with_media post_401_world sample_user sample_post
       sample_token JNull JNull
     = ([Http (post_request sample_token sample_user sample_post JNull JNull)],
        Ok (false, JStr token_expired_msg)).
Proof.
  split.
  - destruct (unauthorized_shows_token_expired identity_401_world sample_token
                todo_inputs generated_session sample_post (unauthorized userinfo_url))
      as [Hid _]; [evaluate | evaluate | evaluate |].
    rewrite Hid by evaluate. right. right. by left.
  - destruct (unauthorized_shows_token_expired post_401_world sample_token
                todo_inputs generated_session sample_post (unauthorized post_url))
      as [_ Hpost]; [evaluate | evaluate | evaluate |].
    destruct (Hpost sample_user sample_name JNull) as [Hc _];
      [evaluate | evaluate | evaluate | evaluate | exact Hc].
Defined.

(** Counterexample to C7 as stated: the post-creation endpoint answers 300,
    a non-2xx status, with a JSON body, and the helper returns success. *)
Lemma multiple_choices_counts_as_success :
  send post_300_world (post_request sample_token sample_user sample_post JNull JNull)
  = inr multiple_choices
  /\ status_code multiple_choices = 300%Z
  /\ result (create_linkedin_post_with_media post_300_world sample_user sample_post
               sample_token JNull JNull)
     = Ok (true, JObj [(py "choices", JArr [])]).
Proof. repeat split; evaluate. Qed.

(** A sample instance of C7 as amended: the post-creation endpoint answers
    201 with a JSON body. *)
Lemma post_creation_result_witness :
  result (create_linkedin_post_with_media happy_world sample_user sample_post
            sample_token JNull JNull)
  = Ok (true, JObj [(py "id", JStr (py "urn:li:share:7001"))]).
Proof.
  destruct (post_creation_result happy_world sample_token sample_user sample_post
              JNull JNull post_created) as (_ & Hok & _); [evaluate|].
  apply Hok; [vm_compute; intros [H _]; by apply H | evaluate].
Defined.

(** A sample instance of C8: generate, clear, look at
    the page, press publish. *)
Lemma publish_after_clear_is_rejected_witness :
  shown (script_run happy_world sample_token ClickPublish todo_inputs
           (script_runs sample_token [(happy_world, NoClick, todo_inputs)]
              (session (script_run happy_world sample_token ClickClear todo_inputs
                          generated_session))))
  = [Notice Error generate_first_notice].
Proof.
  apply (publish_after_clear_is_rejected sample_token happy_world todo_inputs
           generated_session [(happy_world, NoClick, todo_inputs)] happy_world todo_inputs);
    [evaluate | repeat constructor; discriminate].
Defined.

(** * Further properties of the script *)

(** ** API keys *)

Section ApiKeys.

Variable environ : gmap pystr pystr.

Lemma get_api_keys_from_secrets (d : list (pystr * json)) (g l : json) :
  assoc (py "GOOGLE_API_KEY") d = Some g ->
  assoc (py "LINKEDIN_ACCESS_TOKEN") d = Some l ->
  get_api_keys (Some d) environ = ([], Ok (g, l)).
Proof.
  intros Hg Hl. unfold get_api_keys, secrets_get, subscript.
  by rewrite Hg, Hl.
Qed.

Lemma get_api_keys_from_environ (secrets : option (list (pystr * json))) :
  match secrets with
  | None => True
  | Some d => assoc (py "GOOGLE_API_KEY") d = None
              \/ assoc (py "LINKEDIN_ACCESS_TOKEN") d = None
  end ->
  get_api_keys secrets environ
  = ([], Ok (getenv (os_environ secrets environ) (py "GOOGLE_API_KEY"),
             getenv (os_environ secrets environ) (py "LINKEDIN_ACCESS_TOKEN"))).
Proof.
  unfold get_api_keys, secrets_get, subscript.
  destruct secrets as [d|]; [|done].
  destruct (assoc (py "GOOGLE_API_KEY") d) as [g|] eqn:Hg; [|done].
  destruct (assoc (py "LINKEDIN_ACCESS_TOKEN") d) as [l|] eqn:Hl; [|done].
  by intros [|].
Qed.

(** A key that the file does not define keeps the variable it had. *)
Lemma export_secrets_absent (d : list (pystr * json)) (key : pystr) :
  ~ In key (List.map fst d) ->
  export_secrets d environ !! key = environ !! key.
Proof.
  induction d as [|[k v] d IH]; [done|]. simpl. intros Hn.
  assert (Hk : k <> key) by tauto.
  assert (Hd : ~ In key (List.map fst d)) by tauto.
  destruct v; simpl; rewrite ?lookup_insert_ne by done; by apply IH.
Qed.

Lemma assoc_None (d : list (pystr * json)) (key : pystr) :
  assoc key d = None <-> ~ In key (List.map fst d).
Proof.
  induction d as [|[k v] d IH]; simpl; [tauto|].
  unfold pystr_eqb. case_bool_decide as Hk.
  - split; [discriminate|]. intros Hn. destruct Hn. by left.
  - rewrite IH. split; [|tauto]. intros Hn [Heq|Hin]; [by subst|by apply Hn].
Qed.

(** What [os.getenv] finds for a key once the file has been parsed. *)
Lemma export_secrets_lookup (d : list (pystr * json)) (key : pystr) :
  match assoc key d with
  | Some (JStr v) => export_secrets d environ !! key = Some v
  | Some (JInt n) => export_secrets d environ !! key = Some (str_int n)
  | Some _ => List.NoDup (List.map fst d) -> export_secrets d environ !! key = environ !! key
  | None => export_secrets d environ !! key = environ !! key
  end.
Proof.
  induction d as [|[k v] d IH]; [done|]. simpl.
  unfold pystr_eqb. case_bool_decide as Hk.
  - subst k. destruct v; simpl; rewrite ?lookup_insert_eq; try done;
      intros Hnd; apply export_secrets_absent; apply List.NoDup_cons_iff in Hnd; tauto.
  - destruct (assoc key d) as [[| | | | |]|];
      destruct v; simpl; rewrite ?lookup_insert_ne by done; try exact IH;
      intros Hnd; apply IH; apply List.NoDup_cons_iff in Hnd; tauto.
Qed.

(** X1: when there is no secrets file, or the file lacks either key, both
    keys are read with [os.getenv], from the environment as it is once
    Streamlit has copied the file's top-level strings and numbers into it:
    a key that the file defines as a string is that string, one defined as
    a number is the number's text, and a key that the file does not define
    is the environment variable of the process. *)
Theorem incomplete_secrets_still_count (secrets : option (list (pystr * json))) :
  match secrets with
  | None => True
  | Some d => assoc (py "GOOGLE_API_KEY") d = None
              \/ assoc (py "LINKEDIN_ACCESS_TOKEN") d = None
  end ->
  get_api_keys secrets environ
  = ([], Ok (getenv (os_environ secrets environ) (py "GOOGLE_API_KEY"),
             getenv (os_environ secrets environ) (py "LINKEDIN_ACCESS_TOKEN")))
  /\ forall key,
       match secrets with
       | None => getenv (os_environ secrets environ) key = getenv environ key
       | Some d =>
         match assoc key d with
         | Some (JStr v) => getenv (os_environ secrets environ) key = JStr v
         | Some (JInt n) => getenv (os_environ secrets environ) key = JStr (str_int n)
         | Some _ => List.NoDup (List.map fst d) ->
                     getenv (os_environ secrets environ) key = getenv environ key
         | None => getenv (os_environ secrets environ) key = getenv environ key
         end
       end.
Proof.
  intros Hs. split; [by apply get_api_keys_from_environ|].
  intros key. destruct secrets as [d|]; [|done].
  unfold getenv, os_environ.
  pose proof (export_secrets_lookup d key) as Hl.
  destruct (assoc key d) as [[| | | | |]|]; try (by rewrite Hl);
    intros Hnd; by rewrite (Hl Hnd).
Qed.

(** X2: a secrets file that defines both keys, one of them with a false
    value such as the empty string, stops the script with the two setup
    notices; the environment variables are not consulted. *)
Theorem falsy_secret_stops_the_script (d : list (pystr * json)) (g l : json) :
  assoc (py "GOOGLE_API_KEY") d = Some g ->
  assoc (py "LINKEDIN_ACCESS_TOKEN") d = Some l ->
  truthy g = false \/ truthy l = false ->
  startup (Some d) environ
  = ([Notice Error configure_notice; Notice Info setup_help], Ok None).
Proof.
  intros Hg Hl Hf. unfold startup.
  rewrite (get_api_keys_from_secrets d g l Hg Hl). cbn [bind].
  destruct Hf as [-> | ->]; [done|]. by rewrite orb_true_r.
Qed.

(** X3: without a complete secrets file the script gets past the validation
    exactly when both variables are set and not empty in the environment as
    it is once the file, if any, has been copied into it, and then with
    their values; otherwise it stops with the two setup notices. *)
Theorem startup_from_environment (secrets : option (list (pystr * json))) :
  match secrets with
  | None => True
  | Some d => assoc (py "GOOGLE_API_KEY") d = None
              \/ assoc (py "LINKEDIN_ACCESS_TOKEN") d = None
  end ->
  (forall keys, startup secrets environ = ([], Ok (Some keys)) <->
     exists g l, os_environ secrets environ !! py "GOOGLE_API_KEY" = Some g /\ g <> []
                 /\ os_environ secrets environ !! py "LINKEDIN_ACCESS_TOKEN" = Some l
                 /\ l <> []
                 /\ keys = (JStr g, JStr l))
  /\ (startup secrets environ = ([], Ok None) -> False)
  /\ exists stopped : bool,
       startup secrets environ
       = if stopped
         then ([Notice Error configure_notice; Notice Info setup_help], Ok None)
         else ([], Ok (Some (getenv (os_environ secrets environ) (py "GOOGLE_API_KEY"),
                             getenv (os_environ secrets environ)
                                    (py "LINKEDIN_ACCESS_TOKEN")))).
Proof.
  intros Hs. unfold startup.
  rewrite (get_api_keys_from_environ secrets Hs). cbn [bind]. unfold getenv.
  destruct (os_environ secrets environ !! py "GOOGLE_API_KEY") as [[|c g]|];
    destruct (os_environ secrets environ !! py "LINKEDIN_ACCESS_TOKEN") as [[|c' l]|]; simpl;
    (split; [|split; [discriminate|]]);
    try (by exists true); try (by exists false);
    intros keys; split;
    try discriminate;
    try (intros (g' & l' & H1 & H2 & H3 & H4 & _); congruence).
  - intros H. injection H as <-. exists (c :: g), (c' :: l). by repeat split.
  - intros (g' & l' & H1 & H2 & H3 & H4 & ->). congruence.
Qed.

End ApiKeys.

(** ** Generation, continued *)

Section GenerationRuns.

Variable E : env.
Variable token : pystr.

Lemma generate_handler_cases (inp : Inputs) (s : gmap string pystr) :
  generate_handler E inp s =
    if negb (truthy_str (project_title inp)) || negb (truthy_str (tech1 inp))
    then ([Notice Error fill_in_notice], Ok s)
    else match generate_content E model_name (prompt inp) with
         | inr text =>
           ([Generate model_name (prompt inp);
             Notice Success (py "✅ Post generated successfully!")],
            Ok (<["generated_post" := text]> s))
         | inl msg =>
           ([Generate model_name (prompt inp);
             Notice Error (py "❌ Error generating post: " ++ msg);
             Notice Info (py "💡 Try using a different model or check your API quota")],
            Ok s)
         end.
Proof.
  unfold generate_handler, generate.
  destruct (negb (truthy_str (project_title inp)) || negb (truthy_str (tech1 inp)));
    [done|].
  by destruct (generate_content E model_name (prompt inp)).
Qed.

(** A run with the generate button: the handler, the text area, and the
    preview when a post is stored by then, whose exception ends the run. *)
Lemma script_run_generate (inp : Inputs) (s s' : gmap string pystr) (t : list event) :
  generate_handler E inp s = (t, Ok s') ->
  script_run E token ClickGenerate inp s
  = {| session := display inp s'; shown := t; ending := preview E inp s';
       rerun := false |}.
Proof.
  intros H. unfold script_run, script_pass. rewrite H.
  by destruct (preview E inp s') as [[]|e].
Qed.

(** X4: when the text model answers, the run shows the call and the success
    notice and stores the answer as the generated post, replacing whatever
    was stored; keys other than the two of the draft are untouched.  The run
    ends as the media preview of the attached file does: normally, unless
    the preview raises. *)
Theorem generation_stores_the_draft (inp : Inputs) (s : gmap string pystr) (text : pystr) :
  truthy_str (project_title inp) = true ->
  truthy_str (tech1 inp) = true ->
  generate_content E model_name (prompt inp) = inr text ->
  shown (script_run E token ClickGenerate inp s)
  = [Generate model_name (prompt inp);
     Notice Success (py "✅ Post generated successfully!")]
  /\ session (script_run E token ClickGenerate inp s) !! "generated_post" = Some text
  /\ ending (script_run E token ClickGenerate inp s) = media_preview E inp
  /\ forall k, k <> "generated_post" -> k <> "editable_post" ->
               session (script_run E token ClickGenerate inp s) !! k = s !! k.
Proof.
  intros Ht H1 Hg.
  pose proof (generate_handler_cases inp s) as Hc.
  rewrite Ht, H1, Hg in Hc. cbn [negb orb] in Hc.
  rewrite (script_run_generate inp s _ _ Hc). cbn [shown session ending].
  assert (Hgp : (<["generated_post" := text]> s : gmap string pystr) !! "generated_post"
                = Some text) by apply lookup_insert_eq.
  destruct (display_generated inp _ text Hgp) as [Hd _].
  split; [done|]. split; [exact Hd|].
  split; [exact (preview_generated E inp _ text Hgp)|].
  intros k Hk1 Hk2. unfold display. rewrite Hgp.
  by rewrite !lookup_insert_ne.
Qed.

(** X5: when the text model raises, the run shows the call, the error with
    the exception's text and the hint, and the stored draft is what it was
    before; nothing escapes the handler, and the run ends as the preview
    does: normally when no draft was stored or no file is attached. *)
Theorem failed_generation_keeps_the_draft (inp : Inputs) (s : gmap string pystr)
    (msg : pystr) :
  truthy_str (project_title inp) = true ->
  truthy_str (tech1 inp) = true ->
  generate_content E model_name (prompt inp) = inl msg ->
  shown (script_run E token ClickGenerate inp s)
  = [Generate model_name (prompt inp);
     Notice Error (py "❌ Error generating post: " ++ msg);
     Notice Info (py "💡 Try using a different model or check your API quota")]
  /\ session (script_run E token ClickGenerate inp s) !! "generated_post"
     = s !! "generated_post"
  /\ result (generate_handler E inp s) = Ok s
  /\ ending (script_run E token ClickGenerate inp s) = preview E inp s
  /\ (s !! "generated_post" = None \/ uploaded_file inp = None ->
      ending (script_run E token ClickGenerate inp s) = Ok tt).
Proof.
  intros Ht H1 Hg.
  pose proof (generate_handler_cases inp s) as Hc.
  rewrite Ht, H1, Hg in Hc. cbn [negb orb] in Hc.
  rewrite (script_run_generate inp s _ _ Hc). cbn [shown session ending].
  split; [done|]. split; [|split; [by rewrite Hc|split; [done|]]].
  - unfold display. destruct (s !! "generated_post") eqn:Hs; [|done].
    by rewrite lookup_insert_ne.
  - intros [Hn | Hn]; [by apply preview_not_generated | by apply preview_without_file].
Qed.

(** X6: whatever the inputs and the outside world, no exception escapes
    the generate handler, and a run with the generate button ends normally
    or with the exception of the media preview; it makes no HTTP call, and
    calls the text model at most once, with the model [gemini-1.5-flash]
    and the prompt of the inputs. *)
Theorem generate_run_is_contained (inp : Inputs) (s : gmap string pystr) :
  (exists s', result (generate_handler E inp s) = Ok s')
  /\ (ending (script_run E token ClickGenerate inp s) = Ok tt
      \/ ending (script_run E token ClickGenerate inp s) = media_preview E inp)
  /\ (forall q, ~ In (Http q) (shown (script_run E token ClickGenerate inp s)))
  /\ (forall m p, In (Generate m p) (shown (script_run E token ClickGenerate inp s)) ->
                  m = model_name /\ p = prompt inp)
  /\ (length (List.filter external_call (shown (script_run E token ClickGenerate inp s)))
      <= 1)%nat.
Proof.
  pose proof (generate_handler_cases inp s) as Hc.
  destruct (negb (truthy_str (project_title inp)) || negb (truthy_str (tech1 inp)));
    [|destruct (generate_content E model_name (prompt inp))];
    rewrite (script_run_generate inp s _ _ Hc); cbn [shown session ending];
    (split; [rewrite Hc; by eexists|]);
    (split; [unfold preview; case_match; first [by right | by left]|]);
    (split; [intros q Hq; simpl in Hq; intuition discriminate|]);
    (split; [|simpl; lia]);
    intros m p Hin; simpl in Hin; intuition (try discriminate);
    match goal with H : Generate _ _ = Generate _ _ |- _ => by injection H end.
Qed.

End GenerationRuns.

(** ** The prompt, continued *)

Section Prompt.

Lemma lstrip_nil_iff (s : pystr) : lstrip s = [] <-> blank s = true.
Proof.
  induction s as [|c s IH]; simpl; [done|].
  destruct (isspace c); simpl; [exact IH|]. split; discriminate.
Qed.

Lemma blank_lstrip (s : pystr) : blank (lstrip s) = blank s.
Proof.
  induction s as [|c s IH]; simpl; [done|].
  destruct (isspace c) eqn:Hc; simpl; [exact IH|]. by rewrite Hc.
Qed.

Lemma blank_rev (s : pystr) : blank (rev s) = blank s.
Proof.
  unfold blank. apply eq_true_iff_eq.
  rewrite !forallb_forall. split; intros H x Hx; apply H.
  - by apply (proj1 (in_rev s x)).
  - by apply (proj2 (in_rev s x)).
Qed.

Lemma strip_nil_iff (s : pystr) : strip s = [] <-> blank s = true.
Proof.
  unfold strip, rstrip.
  rewrite <- (blank_lstrip s), <- (blank_rev (lstrip s)), <- lstrip_nil_iff.
  split; [intros H | intros ->; done].
  apply (f_equal (@rev N)) in H. by rewrite rev_involutive in H.
Qed.

(** X7: the technologies used in the prompt are the inputs that have a
    character other than whitespace, in input order; the filter on
    [tech.strip()] keeps nothing else and drops nothing else. *)
Theorem technologies_are_the_nonblank_inputs (inp : Inputs) :
  technologies inp
  = List.filter (fun tech => negb (blank tech))
                [tech1 inp; tech2 inp; tech3 inp; tech4 inp].
Proof.
  unfold technologies. apply List.filter_ext.
  intros tech. destruct (blank tech) eqn:Hb.
  - apply strip_nil_iff in Hb. by rewrite Hb.
  - destruct (strip tech) eqn:Hs; [|done].
    apply strip_nil_iff in Hs. congruence.
Qed.

(** X8: each optional field that is filled in appears in the prompt on a
    line of its own label. *)
Theorem custom_fields_reach_the_prompt (inp : Inputs) :
  (custom_milestone inp <> [] ->
   substring (nl ++ py "- Custom Milestone: " ++ custom_milestone inp ++ nl) (prompt inp))
  /\ (custom_skills inp <> [] ->
      substring (nl ++ py "- Additional Skills: " ++ custom_skills inp ++ nl) (prompt inp))
  /\ (custom_next_phase inp <> [] ->
      substring (nl ++ py "- Next Phase: " ++ custom_next_phase inp ++ nl) (prompt inp)).
Proof.
  assert (Hslice : forall k x,
            (forall l, List.concat (take 3 (drop k l)) = x -> substring x (List.concat l))).
  { intros k x l <-. apply substring_concat_slice. }
  unfold prompt.
  split; [|split]; intros Hne.
  - apply (Hslice 47%nat). cbn [firstn skipn List.concat].
    destruct (custom_milestone inp); [done|].
    cbn [truthy_str]. by rewrite app_nil_r, <- app_assoc.
  - apply (Hslice 49%nat). cbn [firstn skipn List.concat].
    destruct (custom_skills inp); [done|].
    cbn [truthy_str]. by rewrite app_nil_r, <- app_assoc.
  - apply (Hslice 51%nat). cbn [firstn skipn List.concat].
    destruct (custom_next_phase inp); [done|].
    cbn [truthy_str]. by rewrite app_nil_r, <- app_assoc.
Qed.

End Prompt.

(** ** Identity resolution, continued *)

Section Identity.

Variable E : env.
Variable token : pystr.

Lemma http_error_None_401 (r : response) :
  http_error r = None -> (status_code r =? 401)%Z = false.
Proof.
  intros H%http_error_None. destruct (Z.eqb_spec (status_code r) 401); [lia|done].
Qed.

Lemma get_user_urn_on_answer (r : response) (j : json) :
  send E (userinfo_request token) = inr r ->
  http_error r = None ->
  content r = inr j ->
  get_user_urn E token =
    match j with
    | JObj d =>
      ([Http (userinfo_request token)],
       Ok (default JNull (assoc (py "sub") d),
           default (JStr (py "N/A")) (assoc (py "name") d)))
    | _ =>
      ([Http (userinfo_request token)],
       Raise (Exn AttributeError
                (py "'" ++ type_name j ++ py "' object has no attribute 'get'")))
    end.
Proof.
  intros Hr Hm Hc.
  unfold get_user_urn, requests, raise_for_status, response_json.
  rewrite Hr. simpl. rewrite Hm, Hc. simpl.
  by destruct j.
Qed.

Lemma get_user_urn_on_undecodable (r : response) (msg : pystr) :
  send E (userinfo_request token) = inr r ->
  http_error r = None ->
  content r = inl msg ->
  get_user_urn E token =
    ([Http (userinfo_request token); Notice Error (fetch_error_notice msg)],
     Ok (JNull, JNull)).
Proof.
  intros Hr Hm Hc.
  unfold get_user_urn, requests, raise_for_status, response_json, local_response.
  rewrite Hr. simpl. rewrite Hm, Hc. simpl.
  by rewrite (http_error_None_401 r Hm).
Qed.

Lemma publish_run_unidentified (inp : Inputs) (s : gmap string pystr) (g : pystr)
    (uid uname : json) :
  s !! "generated_post" = Some g ->
  preview E inp s = Ok tt ->
  result (get_user_urn E token) = Ok (uid, uname) ->
  truthy uid = false ->
  shown (script_run E token ClickPublish inp s) = trace (get_user_urn E token)
  /\ ending (script_run E token ClickPublish inp s) = Ok tt.
Proof.
  intros Hg Hp Hid Hu.
  destruct (display_generated inp s g Hg) as [Hg' _].
  destruct (script_run_publish E token inp s Hp) as [-> ->].
  unfold publish_handler. rewrite Hg'.
  destruct (get_user_urn E token) as [t0 r0]. simpl in Hid. subst r0.
  cbn [bind]. rewrite Hu. cbn. by rewrite app_nil_r.
Qed.

Lemma publish_run_identity_raises (inp : Inputs) (s : gmap string pystr) (g : pystr)
    (e : exn) :
  s !! "generated_post" = Some g ->
  preview E inp s = Ok tt ->
  result (get_user_urn E token) = Raise e ->
  shown (script_run E token ClickPublish inp s) = trace (get_user_urn E token)
  /\ ending (script_run E token ClickPublish inp s) = Raise e.
Proof.
  intros Hg Hp Hid.
  destruct (display_generated inp s g Hg) as [Hg' _].
  destruct (script_run_publish E token inp s Hp) as [-> ->].
  unfold publish_handler. rewrite Hg'.
  destruct (get_user_urn E token) as [t0 r0]. simpl in Hid. by subst r0.
Qed.

(** X9: from an answer that is a JSON object and has no 4xx or 5xx status,
    the identity helper returns the [sub] entry and the [name] entry, with
    [None] for a missing [sub] and [N/A] for a missing [name]; it makes the
    one call and shows nothing. *)
Theorem identity_is_read_from_the_answer (r : response) (d : list (pystr * json)) :
  send E (userinfo_request token) = inr r ->
  ~ (400 <= status_code r < 600)%Z ->
  content r = inr (JObj d) ->
  get_user_urn E token =
    ([Http (userinfo_request token)],
     Ok (default JNull (assoc (py "sub") d),
         default (JStr (py "N/A")) (assoc (py "name") d))).
Proof.
  intros Hr Hs Hc.
  assert (Hm : http_error r = None).
  { destruct (http_error r) eqn:Hm; [|done].
    destruct Hs. apply http_error_iff. eauto. }
  exact (get_user_urn_on_answer r (JObj d) Hr Hm Hc).
Qed.

(** X10: when the identity answer has no [sub] entry, or a false one, a
    publish run that gets past the media preview stops after the identity
    call without any notice: nothing is uploaded or posted and the user is
    told nothing. *)
Theorem missing_user_id_aborts_silently (inp : Inputs) (s : gmap string pystr)
    (g : pystr) (r : response) (d : list (pystr * json)) :
  s !! "generated_post" = Some g ->
  media_preview E inp = Ok tt ->
  send E (userinfo_request token) = inr r ->
  ~ (400 <= status_code r < 600)%Z ->
  content r = inr (JObj d) ->
  truthy (default JNull (assoc (py "sub") d)) = false ->
  shown (script_run E token ClickPublish inp s) = [Http (userinfo_request token)]
  /\ ending (script_run E token ClickPublish inp s) = Ok tt.
Proof.
  intros Hg Hshow Hr Hs Hc Hsub.
  assert (Hp : preview E inp s = Ok tt) by by rewrite (preview_generated E inp s g Hg).
  assert (Hm : http_error r = None).
  { destruct (http_error r) eqn:Hm; [|done].
    destruct Hs. apply http_error_iff. eauto. }
  pose proof (get_user_urn_on_answer r (JObj d) Hr Hm Hc) as Hid.
  cbv beta iota in Hid.
  destruct (publish_run_unidentified inp s g _ _ Hg Hp (f_equal snd Hid) Hsub) as [-> ->].
  by rewrite Hid.
Qed.

(** X11: when the identity request gets no response (connection failure,
    timeout), a publish run that gets past the media preview shows the
    fetch-error notice and is then ended by an [UnboundLocalError] that
    escapes the script; nothing is uploaded or posted. *)
Theorem identity_without_response_ends_the_run (inp : Inputs) (s : gmap string pystr)
    (g : pystr) (msg : pystr) :
  s !! "generated_post" = Some g ->
  media_preview E inp = Ok tt ->
  send E (userinfo_request token) = inl msg ->
  shown (script_run E token ClickPublish inp s)
  = [Http (userinfo_request token); Notice Error (fetch_error_notice msg)]
  /\ exists e, ending (script_run E token ClickPublish inp s) = Raise e
               /\ exn_class_of e = UnboundLocalError.
Proof.
  intros Hg Hshow Hr.
  assert (Hp : preview E inp s = Ok tt) by by rewrite (preview_generated E inp s g Hg).
  destruct (get_user_urn_without_response E token msg Hr) as (e & He & Hclass).
  destruct (publish_run_identity_raises inp s g e Hg Hp (f_equal snd He)) as [-> ->].
  rewrite He. split; [done|]. by exists e.
Qed.

(** X12: an identity answer without a 4xx or 5xx status that is not a JSON
    object, in a publish run that gets past the media preview.  If the body
    is not JSON, the run shows the fetch-error notice
    with the decoder's text and stops; if it is JSON of another kind (a
    list, a string, ...), the [.get] call fails with an [AttributeError]
    that escapes the script.  No further call is made in either case. *)
Theorem identity_answer_not_an_object (inp : Inputs) (s : gmap string pystr)
    (g : pystr) (r : response) :
  s !! "generated_post" = Some g ->
  media_preview E inp = Ok tt ->
  send E (userinfo_request token) = inr r ->
  ~ (400 <= status_code r < 600)%Z ->
  (forall msg, content r = inl msg ->
     shown (script_run E token ClickPublish inp s)
     = [Http (userinfo_request token); Notice Error (fetch_error_notice msg)]
     /\ ending (script_run E token ClickPublish inp s) = Ok tt)
  /\ (forall j, content r = inr j -> (forall d, j <> JObj d) ->
     shown (script_run E token ClickPublish inp s) = [Http (userinfo_request token)]
     /\ exists e, ending (script_run E token ClickPublish inp s) = Raise e
                  /\ exn_class_of e = AttributeError).
Proof.
  intros Hg Hshow Hr Hs.
  assert (Hp : preview E inp s = Ok tt) by by rewrite (preview_generated E inp s g Hg).
  assert (Hm : http_error r = None).
  { destruct (http_error r) eqn:Hm; [|done].
    destruct Hs. apply http_error_iff. eauto. }
  split.
  - intros msg Hc.
    pose proof (get_user_urn_on_undecodable r msg Hr Hm Hc) as Hid.
    destruct (publish_run_unidentified inp s g _ _ Hg Hp (f_equal snd Hid) eq_refl)
      as [-> ->].
    by rewrite Hid.
  - intros j Hc Hj.
    pose proof (get_user_urn_on_answer r j Hr Hm Hc) as Hid.
    destruct j; try (by destruct (Hj m));
      destruct (publish_run_identity_raises inp s g _ Hg Hp (f_equal snd Hid)) as [-> ->];
      rewrite Hid; (split; [done|]); eauto.
Qed.

End Identity.

(** ** The upload helper, continued *)

Section Upload.

Variable E : env.
Variable token : pystr.

Lemma subscript_shape (j : json) (k : pystr) :
  (exists v, subscript j k = ([], Ok v) /\ json_path [k] j = Some v)
  \/ (exists e, subscript j k = ([], Raise e) /\ json_path [k] j = None).
Proof.
  unfold subscript, json_path.
  destruct j; try (right; eauto; fail).
  destruct (assoc k m); [left|right]; eauto.
Qed.

Lemma json_path_cons (k : pystr) (ks : list pystr) (j v w : json) :
  json_path [k] j = Some v -> json_path ks v = Some w -> json_path (k :: ks) j = Some w.
Proof.
  simpl. destruct j; try done. destruct (assoc k m); [|done].
  by intros [= ->].
Qed.

Ltac subscript_step j k v H :=
  destruct (subscript_shape j k) as [(v & -> & H) | (? & -> & _)];
  cbn [bind ret emit raise try_except app is_Exception exn_class_of exn_str];
  [|left; eauto].

(** Every way through the upload helper. *)
Lemma upload_cases (uid : json) (data : list N) (ftype : pystr) :
  let reg := register_request token uid ftype in
  let up := fun u => POST_data u [(py "Authorization", py "Bearer " ++ token)] data in
  let run := upload_media_to_linkedin E token uid data ftype in
  (exists err,
     run = ([Http reg; Notice Error (py "Error uploading media: " ++ err)], Ok JNull))
  \/ (exists r j u a,
        send E reg = inr r /\ http_error r = None /\ content r = inr j
        /\ json_path [py "value"; py "uploadMechanism";
                      py "com.linkedin.digitalmedia.uploading.MediaUploadHttpRequest";
                      py "uploadUrl"] j = Some u
        /\ json_path [py "value"; py "asset"] j = Some a
        /\ ((exists err,
               (send E (up u) = inl err
                \/ exists r2, send E (up u) = inr r2 /\ http_error r2 = Some err)
               /\ run = ([Http reg; Http (up u);
                          Notice Error (py "Error uploading media: " ++ err)], Ok JNull))
            \/ (exists r2,
                  send E (up u) = inr r2 /\ http_error r2 = None
                  /\ run = ([Http reg; Http (up u)], Ok a)))).
Proof.
  intros reg up run. subst run.
  unfold upload_media_to_linkedin, requests, raise_for_status, response_json.
  fold reg.
  destruct (send E reg) as [msg|r] eqn:Hr;
    cbn [bind ret emit raise try_except app is_Exception exn_class_of exn_str];
    [left; eauto|].
  destruct (http_error r) as [msg|] eqn:Hm;
    cbn [bind ret emit raise try_except app is_Exception exn_class_of exn_str];
    [left; eauto|].
  destruct (content r) as [msg|j] eqn:Hc;
    cbn [bind ret emit raise try_except app is_Exception exn_class_of exn_str];
    [left; eauto|].
  subscript_step j (py "value") jv H1.
  subscript_step jv (py "uploadMechanism") jm H2.
  subscript_step jm (py "com.linkedin.digitalmedia.uploading.MediaUploadHttpRequest") jh H3.
  subscript_step jh (py "uploadUrl") u H4.
  subscript_step jv (py "asset") a H5.
  right. exists r, j, u, a.
  split; [done|]. split; [done|]. split; [done|].
  split; [eauto using json_path_cons|]. split; [eauto using json_path_cons|].
  fold (up u).
  destruct (send E (up u)) as [msg|r2] eqn:Hr2;
    cbn [bind ret emit raise try_except app is_Exception exn_class_of exn_str];
    [left; eauto|].
  destruct (http_error r2) as [msg|] eqn:Hm2;
    cbn [bind ret emit raise try_except app is_Exception exn_class_of exn_str];
    [left; exists msg; eauto | right; eauto].
Qed.

Lemma path_subscript (k : pystr) (ks : list pystr) (j w : json) :
  json_path (k :: ks) j = Some w ->
  exists v, subscript j k = ([], Ok v) /\ json_path ks v = Some w.
Proof.
  simpl. unfold subscript. destruct j; try done.
  destruct (assoc k m) as [v|]; [|done]. intros H. by exists v.
Qed.

Lemma upload_after_registration (uid : json) (data : list N) (ftype : pystr)
    (r : response) (j u a : json) :
  send E (register_request token uid ftype) = inr r ->
  ~ (400 <= status_code r < 600)%Z ->
  content r = inr j ->
  json_path [py "value"; py "uploadMechanism";
             py "com.linkedin.digitalmedia.uploading.MediaUploadHttpRequest";
             py "uploadUrl"] j = Some u ->
  json_path [py "value"; py "asset"] j = Some a ->
  let up := POST_data u [(py "Authorization", py "Bearer " ++ token)] data in
  upload_media_to_linkedin E token uid data ftype =
    match send E up with
    | inl err =>
      ([Http (register_request token uid ftype); Http up;
        Notice Error (py "Error uploading media: " ++ err)], Ok JNull)
    | inr r2 =>
      match http_error r2 with
      | Some err =>
        ([Http (register_request token uid ftype); Http up;
          Notice Error (py "Error uploading media: " ++ err)], Ok JNull)
      | None => ([Http (register_request token uid ftype); Http up], Ok a)
      end
    end.
Proof.
  intros Hr Hs Hc Hu Ha up.
  assert (Hm : http_error r = None).
  { destruct (http_error r) eqn:Hm; [|done].
    destruct Hs. apply http_error_iff. eauto. }
  apply path_subscript in Hu as (jv & S1 & Hu).
  apply path_subscript in Hu as (jm & S2 & Hu).
  apply path_subscript in Hu as (jh & S3 & Hu).
  apply path_subscript in Hu as (u' & S4 & [= ->]).
  apply path_subscript in Ha as (jv' & S1' & Ha).
  rewrite S1 in S1'. injection S1' as <-.
  apply path_subscript in Ha as (a' & S5 & [= ->]).
  unfold upload_media_to_linkedin, requests, raise_for_status, response_json.
  rewrite Hr. cbn [bind ret emit raise try_except app].
  rewrite Hm. cbn [bind ret emit raise try_except app].
  rewrite Hc. cbn [bind ret emit raise try_except app].
  rewrite S1. cbn [bind ret emit raise try_except app].
  rewrite S2. cbn [bind ret emit raise try_except app].
  rewrite S3. cbn [bind ret emit raise try_except app].
  rewrite S4. cbn [bind ret emit raise try_except app].
  rewrite S5. cbn [bind ret emit raise try_except app].
  fold up. destruct (send E up) as [err|r2]; [done|].
  cbn [bind ret emit raise try_except app].
  by destruct (http_error r2).
Qed.

(** X13: when the registration answer carries an upload URL and an asset
    and the binary upload is answered without a 4xx or 5xx status, the
    helper returns that asset.  It has made two calls and shown nothing: the
    registration, then the file's bytes posted to the URL of the answer with
    the bearer token as the only header. *)
Theorem upload_returns_the_registered_asset (uid : json) (data : list N) (ftype : pystr)
    (r r2 : response) (j u a : json) :
  send E (register_request token uid ftype) = inr r ->
  ~ (400 <= status_code r < 600)%Z ->
  content r = inr j ->
  json_path [py "value"; py "uploadMechanism";
             py "com.linkedin.digitalmedia.uploading.MediaUploadHttpRequest";
             py "uploadUrl"] j = Some u ->
  json_path [py "value"; py "asset"] j = Some a ->
  send E (POST_data u [(py "Authorization", py "Bearer " ++ token)] data) = inr r2 ->
  ~ (400 <= status_code r2 < 600)%Z ->
  upload_media_to_linkedin E token uid data ftype =
    ([Http (register_request token uid ftype);
      Http (POST_data u [(py "Authorization", py "Bearer " ++ token)] data)],
     Ok a).
Proof.
  intros Hr Hs Hc Hu Ha Hr2 Hs2.
  rewrite (upload_after_registration uid data ftype r j u a Hr Hs Hc Hu Ha).
  rewrite Hr2.
  destruct (http_error r2) eqn:Hm2; [|done].
  destruct Hs2. apply http_error_iff. eauto.
Qed.

(** X14: the helper never makes up an identifier.  Whatever the outside
    world does, it returns either [None] or the [asset] entry of a
    registration answer that carried an upload URL, and the latter only if
    the binary upload was answered without a 4xx or 5xx status. *)
Theorem upload_result_is_None_or_the_asset (uid : json) (data : list N) (ftype : pystr)
    (v : json) :
  result (upload_media_to_linkedin E token uid data ftype) = Ok v ->
  v = JNull
  \/ exists r j u r2,
       send E (register_request token uid ftype) = inr r
       /\ content r = inr j
       /\ json_path [py "value"; py "asset"] j = Some v
       /\ json_path [py "value"; py "uploadMechanism";
                     py "com.linkedin.digitalmedia.uploading.MediaUploadHttpRequest";
                     py "uploadUrl"] j = Some u
       /\ send E (POST_data u [(py "Authorization", py "Bearer " ++ token)] data) = inr r2
       /\ ~ (400 <= status_code r2 < 600)%Z.
Proof.
  intros Hv.
  destruct (upload_cases uid data ftype)
    as [(err & Hrun)
       | (r & j & u & a & Hr & Hm & Hc & Hu & Ha
          & [(err & _ & Hrun) | (r2 & Hr2 & Hm2 & Hrun)])];
    rewrite Hrun in Hv; injection Hv as <-; [by left | by left |].
  right. exists r, j, u, r2. repeat split; try done.
  by apply http_error_None.
Qed.

(** X15: when the binary upload fails after a good registration (no
    response, or a 4xx or 5xx status), the helper shows the error and returns
    [None]; the asset that was registered is dropped. *)
Theorem failed_binary_upload_drops_the_asset (uid : json) (data : list N) (ftype : pystr)
    (r : response) (j u a : json) (err : pystr) :
  send E (register_request token uid ftype) = inr r ->
  ~ (400 <= status_code r < 600)%Z ->
  content r = inr j ->
  json_path [py "value"; py "uploadMechanism";
             py "com.linkedin.digitalmedia.uploading.MediaUploadHttpRequest";
             py "uploadUrl"] j = Some u ->
  json_path [py "value"; py "asset"] j = Some a ->
  (send E (POST_data u [(py "Authorization", py "Bearer " ++ token)] data) = inl err
   \/ exists r2,
        send E (POST_data u [(py "Authorization", py "Bearer " ++ token)] data) = inr r2
        /\ http_error r2 = Some err) ->
  upload_media_to_linkedin E token uid data ftype =
    ([Http (register_request token uid ftype);
      Http (POST_data u [(py "Authorization", py "Bearer " ++ token)] data);
      Notice Error (py "Error uploading media: " ++ err)],
     Ok JNull).
Proof.
  intros Hr Hs Hc Hu Ha Hfail.
  rewrite (upload_after_registration uid data ftype r j u a Hr Hs Hc Hu Ha).
  destruct Hfail as [-> | (r2 & -> & ->)]; done.
Qed.

(** X16: a registration answer that is a JSON object without the [value]
    entry makes the helper show the [KeyError] text and return [None]; the
    binary upload is not attempted. *)
Theorem registration_without_value_is_reported (uid : json) (data : list N)
    (ftype : pystr) (r : response) (d : list (pystr * json)) :
  send E (register_request token uid ftype) = inr r ->
  ~ (400 <= status_code r < 600)%Z ->
  content r = inr (JObj d) ->
  assoc (py "value") d = None ->
  upload_media_to_linkedin E token uid data ftype =
    ([Http (register_request token uid ftype);
      Notice Error (py "Error uploading media: 'value'")],
     Ok JNull).
Proof.
  intros Hr Hs Hc Hd.
  assert (Hm : http_error r = None).
  { destruct (http_error r) eqn:Hm; [|done].
    destruct Hs. apply http_error_iff. eauto. }
  unfold upload_media_to_linkedin, requests, raise_for_status, response_json, subscript.
  rewrite Hr. cbn [bind ret emit raise try_except app].
  rewrite Hm. cbn [bind ret emit raise try_except app].
  rewrite Hc. cbn [bind ret emit raise try_except app].
  rewrite Hd. cbn [bind ret emit raise try_except app is_Exception exn_class_of exn_str].
  do 3 f_equal.
Qed.

End Upload.

(** ** Publish runs *)

Section PublishRuns.

Variable E : env.
Variable token : pystr.

Lemma report_trace (created : bool * json) :
  report created =
    (match created with
     | (true, answer) =>
       [Notice Success (py "🎉 Post published successfully to LinkedIn!");
        Balloons; ShowJson answer]
     | (false, answer) => [Notice Error (failed_to_publish_notice answer)]
     end, Ok tt).
Proof. by destruct created as [[|] answer]. Qed.

Lemma upload_step_no_file (inp : Inputs) (uid : json) :
  uploaded_file inp = None -> upload_step E token uid inp = ([], Ok JNull).
Proof. intros H. unfold upload_step. by rewrite H. Qed.

(** A publish run that has an identity and gets an answer from the
    post-creation endpoint. *)
Lemma publish_run_answered (inp : Inputs) (s : gmap string pystr) (g : pystr)
    (uid uname mu : json) (r : response) :
  s !! "generated_post" = Some g ->
  preview E inp s = Ok tt ->
  result (get_user_urn E token) = Ok (uid, uname) ->
  truthy uid = true ->
  result (upload_step E token uid inp) = Ok mu ->
  let call := post_request token uid (default g (edited_text inp)) mu
                (linkedin_media_type inp mu) in
  send E call = inr r ->
  let created :=
    match http_error r with
    | Some msg =>
      (false, JStr (if (status_code r =? 401)%Z then token_expired_msg
                    else if (status_code r =? 403)%Z then insufficient_permissions_msg
                    else msg))
    | None =>
      match content r with
      | inr body => (true, body)
      | inl msg => (false, JStr msg)
      end
    end in
  shown (script_run E token ClickPublish inp s)
  = trace (get_user_urn E token)
      ++ Notice Info (py "👤 Posting as: " ++ py_str uname)
      :: trace (upload_step E token uid inp)
      ++ Http call :: trace (report created)
  /\ ending (script_run E token ClickPublish inp s) = Ok tt.
Proof.
  intros Hg Hp Hid Hu Hmu call Hr created.
  destruct (display_generated inp s g Hg) as [Hg' He'].
  destruct (script_run_publish E token inp s Hp) as [-> ->].
  rewrite (publish_handler_identified E token inp _ g _ uid uname mu Hg' He' Hid Hu Hmu).
  cbv zeta.
  rewrite (bind_Ok _ report _ _ (create_post_on_response E token uid _ mu _ r Hr)).
  fold created. rewrite !trace_pair. unfold result at 1 2. cbn [snd].
  split; [done|]. by rewrite report_trace.
Qed.

(** A publish run that has an identity and gets no answer from the
    post-creation endpoint. *)
Lemma publish_run_unanswered (inp : Inputs) (s : gmap string pystr) (g : pystr)
    (uid uname mu : json) (msg : pystr) :
  s !! "generated_post" = Some g ->
  preview E inp s = Ok tt ->
  result (get_user_urn E token) = Ok (uid, uname) ->
  truthy uid = true ->
  result (upload_step E token uid inp) = Ok mu ->
  let call := post_request token uid (default g (edited_text inp)) mu
                (linkedin_media_type inp mu) in
  send E call = inl msg ->
  shown (script_run E token ClickPublish inp s)
  = trace (get_user_urn E token)
      ++ Notice Info (py "👤 Posting as: " ++ py_str uname)
      :: trace (upload_step E token uid inp) ++ [Http call]
  /\ exists e, ending (script_run E token ClickPublish inp s) = Raise e
               /\ exn_class_of e = UnboundLocalError.
Proof.
  intros Hg Hp Hid Hu Hmu call Hr.
  destruct (display_generated inp s g Hg) as [Hg' He'].
  destruct (script_run_publish E token inp s Hp) as [-> ->].
  rewrite (publish_handler_identified E token inp _ g _ uid uname mu Hg' He' Hid Hu Hmu).
  cbv zeta.
  destruct (create_post_without_response E token uid _ mu _ msg Hr) as (e & He & Hclass).
  pose proof (create_post_trace E token uid (default g (edited_text inp)) mu
                (linkedin_media_type inp mu)) as Ht.
  destruct (create_linkedin_post_with_media E uid (default g (edited_text inp)) token mu
              (linkedin_media_type inp mu)) as [tc rc].
  cbn [trace result fst snd] in Ht, He. subst tc rc.
  cbn [bind trace result fst snd]. split; [done|]. by exists e.
Qed.

(** X17: whatever the media arguments are, the post-creation body names the
    author as [urn:li:person:] followed by the user id, is in state
    [PUBLISHED] with [PUBLIC] visibility and carries the text as its
    commentary; it has a [media] entry exactly when the media identifier is
    true. *)
Theorem post_body_always_has_its_base_fields (uid : json) (text : pystr) (mu mt : json) :
  let body := post_data uid text mu mt in
  json_path [py "author"] body = Some (JStr (py "urn:li:person:" ++ py_str uid))
  /\ json_path [py "lifecycleState"] body = Some (JStr (py "PUBLISHED"))
  /\ json_path [py "visibility"; py "com.linkedin.ugc.MemberNetworkVisibility"] body
     = Some (JStr (py "PUBLIC"))
  /\ share_field (py "shareCommentary") body = Some (JObj [(py "text", JStr text)])
  /\ (share_field (py "media") body = None <-> truthy mu = false).
Proof.
  intros body. subst body. unfold share_field.
  destruct (truthy mu) eqn:Hmu.
  - rewrite (share_content_with_media uid text mu mt Hmu).
    unfold post_data. rewrite Hmu.
    split; [reflexivity|]. split; [reflexivity|]. split; [reflexivity|].
    split; [reflexivity|]. split; discriminate.
  - rewrite (share_content_without_media uid text mu mt Hmu).
    unfold post_data. rewrite Hmu.
    split; [reflexivity|]. split; [reflexivity|]. split; [reflexivity|].
    split; [reflexivity|]. split; reflexivity.
Qed.

(** X18: a publish run without a file, with an identity and a post-creation
    answer that is JSON without a 4xx or 5xx status: after the identity call
    the run names the user, calls the post endpoint once with a body of
    category [NONE] and no media, then shows the success notice, the balloons
    and the answer.  No registration or upload call is made. *)
Theorem text_only_publish_succeeds (inp : Inputs) (s : gmap string pystr) (g : pystr)
    (uid uname : json) (r : response) (answer : json) :
  s !! "generated_post" = Some g ->
  uploaded_file inp = None ->
  result (get_user_urn E token) = Ok (uid, uname) ->
  truthy uid = true ->
  let call := post_request token uid (default g (edited_text inp)) JNull JNull in
  send E call = inr r ->
  ~ (400 <= status_code r < 600)%Z ->
  content r = inr answer ->
  shown (script_run E token ClickPublish inp s)
  = trace (get_user_urn E token)
      ++ [Notice Info (py "👤 Posting as: " ++ py_str uname);
          Http call;
          Notice Success (py "🎉 Post published successfully to LinkedIn!");
          Balloons;
          ShowJson answer]
  /\ ending (script_run E token ClickPublish inp s) = Ok tt
  /\ share_content (post_data uid (default g (edited_text inp)) JNull JNull)
     = Some (JObj [(py "shareCommentary",
                    JObj [(py "text", JStr (default g (edited_text inp)))]);
                   (py "shareMediaCategory", JStr (py "NONE"))]).
Proof.
  intros Hg Hf Hid Hu call Hr Hs Hc.
  assert (Hm : http_error r = None).
  { destruct (http_error r) eqn:Hm; [|done].
    destruct Hs. apply http_error_iff. eauto. }
  pose proof (upload_step_no_file inp uid Hf) as Hstep.
  assert (Hty : linkedin_media_type inp JNull = JNull).
  { unfold linkedin_media_type. by rewrite Hf. }
  assert (Hr' : send E (post_request token uid (default g (edited_text inp)) JNull
                          (linkedin_media_type inp JNull)) = inr r) by by rewrite Hty.
  destruct (publish_run_answered inp s g uid uname JNull r Hg
              (preview_without_file E inp s Hf) Hid Hu
              (f_equal snd Hstep) Hr') as [Hshown Hend].
  rewrite Hshown, Hend, Hstep, Hm, Hc, Hty, report_trace.
  split; [done|]. split; [done|].
  by apply share_content_without_media.
Qed.

(** X19: when the post-creation endpoint answers with a 4xx or 5xx status,
    a publish run that gets past the media preview ends normally with the
    failure notice as its last event; the
    notice carries the token message for 401, the permissions message for
    403 and the text of the HTTP error for any other status. *)
Theorem post_failure_is_reported (inp : Inputs) (s : gmap string pystr) (g : pystr)
    (uid uname mu : json) (r : response) :
  s !! "generated_post" = Some g ->
  media_preview E inp = Ok tt ->
  result (get_user_urn E token) = Ok (uid, uname) ->
  truthy uid = true ->
  result (upload_step E token uid inp) = Ok mu ->
  let call := post_request token uid (default g (edited_text inp)) mu
                (linkedin_media_type inp mu) in
  send E call = inr r ->
  (400 <= status_code r < 600)%Z ->
  exists before msg,
    http_error r = Some msg
    /\ shown (script_run E token ClickPublish inp s)
       = before ++ [Http call;
                    Notice Error
                      (py "❌ Failed to publish post: "
                       ++ (if (status_code r =? 401)%Z then token_expired_msg
                           else if (status_code r =? 403)%Z
                                then insufficient_permissions_msg
                                else msg))]
    /\ ending (script_run E token ClickPublish inp s) = Ok tt.
Proof.
  intros Hg Hshow Hid Hu Hmu call Hr [msg Hm]%http_error_iff.
  assert (Hp : preview E inp s = Ok tt) by by rewrite (preview_generated E inp s g Hg).
  destruct (publish_run_answered inp s g uid uname mu r Hg Hp Hid Hu Hmu Hr)
    as [Hshown Hend].
  rewrite Hm, report_trace in Hshown.
  eexists _, msg. split; [done|]. split; [|done].
  rewrite Hshown. rewrite app_comm_cons, app_assoc. reflexivity.
Qed.

(** X20: when the post-creation request gets no response, a publish run
    that gets past the media preview is ended by an [UnboundLocalError]
    that escapes the script right after the call,
    with neither a success nor a failure notice, whatever was uploaded
    before. *)
Theorem post_without_response_ends_the_run (inp : Inputs) (s : gmap string pystr)
    (g : pystr) (uid uname mu : json) (msg : pystr) :
  s !! "generated_post" = Some g ->
  media_preview E inp = Ok tt ->
  result (get_user_urn E token) = Ok (uid, uname) ->
  truthy uid = true ->
  result (upload_step E token uid inp) = Ok mu ->
  let call := post_request token uid (default g (edited_text inp)) mu
                (linkedin_media_type inp mu) in
  send E call = inl msg ->
  (exists before, shown (script_run E token ClickPublish inp s) = before ++ [Http call])
  /\ exists e, ending (script_run E token ClickPublish inp s) = Raise e
               /\ exn_class_of e = UnboundLocalError.
Proof.
  intros Hg Hshow Hid Hu Hmu call Hr.
  assert (Hp : preview E inp s = Ok tt) by by rewrite (preview_generated E inp s g Hg).
  destruct (publish_run_unanswered inp s g uid uname mu msg Hg Hp Hid Hu Hmu Hr)
    as [Hshown Hend].
  split; [|exact Hend].
  rewrite Hshown. eexists. rewrite app_comm_cons, app_assoc. reflexivity.
Qed.

End PublishRuns.

(** ** What a publish run may do *)

Section PublishBounds.

Variable E : env.
Variable token : pystr.

Lemma get_user_urn_trace :
  exists rest,
    trace (get_user_urn E token) = Http (userinfo_request token) :: rest
    /\ Forall (fun ev => external_call ev = false) rest.
Proof.
  unfold get_user_urn, requests, raise_for_status, response_json, local_response,
    dict_get.
  destruct (send E (userinfo_request token)) as [msg|r]; simpl.
  { eexists. split; [reflexivity|]. by repeat constructor. }
  destruct (http_error r); simpl.
  { destruct (status_code r =? 401)%Z; simpl;
      (eexists; split; [reflexivity|]; by repeat constructor). }
  destruct (content r) as [msg|j]; simpl.
  { destruct (status_code r =? 401)%Z; simpl;
      (eexists; split; [reflexivity|]; by repeat constructor). }
  destruct j; simpl; (eexists; split; [reflexivity|]; by repeat constructor).
Qed.

Lemma created_and_reported_trace (uid : json) (text : pystr) (mu mt : json) :
  exists rest,
    trace (bind (create_linkedin_post_with_media E uid text token mu mt) report)
    = Http (post_request token uid text mu mt) :: rest
    /\ Forall (fun ev => external_call ev = false) rest.
Proof.
  pose proof (create_post_trace E token uid text mu mt) as Ht.
  destruct (create_linkedin_post_with_media E uid text token mu mt) as [tc [c|e]];
    cbn [trace fst] in Ht; subst tc.
  - rewrite (bind_Ok _ report _ c eq_refl), report_trace, !trace_pair.
    eexists. split; [reflexivity|].
    destruct c as [[|] answer]; by repeat constructor.
  - exists []. by split.
Qed.

Lemma upload_step_trace (inp : Inputs) (uid : json) :
  Forall (publish_event token) (trace (upload_step E token uid inp))
  /\ (length (List.filter external_call (trace (upload_step E token uid inp))) <= 2)%nat.
Proof.
  destruct (uploaded_file inp) as [f|] eqn:Hf;
    [|rewrite (upload_step_no_file E token inp uid Hf); split; [constructor | simpl; lia]].
  destruct (upload_never_raises E token uid (file_bytes f) (file_type f)) as [v Hv].
  rewrite (upload_step_file E token inp f uid v Hf Hv), trace_pair.
  assert (Hreg : publish_call token (register_request token uid (file_type f))).
  { right. left. eauto. }
  assert (Hup : forall u, publish_call token
                  (POST_data u [(py "Authorization", py "Bearer " ++ token)] (file_bytes f))).
  { intros u. right. right. left. by exists u, (file_bytes f). }
  assert (Hlast : forall (b : bool),
            external_call (if b then Notice Success (py "✅ Media uploaded successfully!")
                           else Notice Warning
                                  (py "⚠️ Media upload failed, posting without media..."))
            = false) by by intros [|].
  destruct (upload_cases E token uid (file_bytes f) (file_type f))
    as [(err & Hrun)
       | (r & j & u & a & _ & _ & _ & _ & _
          & [(err & _ & Hrun) | (r2 & _ & _ & Hrun)])];
    rewrite Hrun, trace_pair; cbn [app List.filter external_call];
    rewrite ?Hlast; (split; [|simpl; lia]);
    repeat (apply List.Forall_cons;
            [first [exact Hreg | apply Hup | exact I | by destruct (truthy v)]|]);
    apply List.Forall_nil.
Qed.

(** The shapes of a publish run: ended by the preview, refused for want of
    a generated post, stopped after the identity call, or carried through
    to the post-creation call. *)
Lemma publish_run_forms (inp : Inputs) (s : gmap string pystr) :
  shown (script_run E token ClickPublish inp s) = []
  \/ shown (script_run E token ClickPublish inp s) = [Notice Error generate_first_notice]
  \/ shown (script_run E token ClickPublish inp s) = trace (get_user_urn E token)
  \/ exists g uid uname mu,
       s !! "generated_post" = Some g
       /\ result (get_user_urn E token) = Ok (uid, uname)
       /\ truthy uid = true
       /\ result (upload_step E token uid inp) = Ok mu
       /\ shown (script_run E token ClickPublish inp s)
          = trace (get_user_urn E token)
              ++ Notice Info (py "👤 Posting as: " ++ py_str uname)
              :: trace (upload_step E token uid inp)
              ++ trace (bind (create_linkedin_post_with_media E uid
                                (default g (edited_text inp)) token mu
                                (linkedin_media_type inp mu)) report).
Proof.
  destruct (preview E inp s) as [[]|e0] eqn:Hp.
  2: { left. by rewrite (script_run_publish_stopped E token inp s e0 Hp). }
  right.
  destruct (s !! "generated_post") as [g|] eqn:Hg.
  2: { left. by destruct (publish_without_generated_post token E inp s Hg). }
  right.
  destruct (result (get_user_urn E token)) as [[uid uname]|e] eqn:Hid.
  2: { left. by destruct (publish_run_identity_raises E token inp s g e Hg Hp Hid). }
  destruct (truthy uid) eqn:Hu.
  2: { left. by destruct (publish_run_unidentified E token inp s g uid uname Hg Hp Hid Hu). }
  right.
  destruct (upload_step_never_raises E token inp uid) as [mu Hmu].
  exists g, uid, uname, mu. repeat split; try done.
  destruct (display_generated inp s g Hg) as [Hg' He'].
  destruct (script_run_publish E token inp s Hp) as [-> _].
  by rewrite (publish_handler_identified E token inp _ g _ uid uname mu Hg' He' Hid Hu Hmu).
Qed.

Lemma no_call_is_publish_event (l : list event) :
  Forall (fun ev => external_call ev = false) l ->
  Forall (publish_event token) l /\ List.filter external_call l = [].
Proof.
  induction 1 as [|ev l Hev _ [IH1 IH2]]; [by split|].
  split.
  - constructor; [|done]. by destruct ev.
  - simpl. by rewrite Hev.
Qed.

(** X21: whatever the inputs, the session and the outside world, a publish
    run makes at most four external calls, each of them one of the identity,
    registration, upload and post-creation calls with the configured token,
    and never calls the text model. *)
Theorem publish_run_calls_are_bounded (inp : Inputs) (s : gmap string pystr) :
  Forall (publish_event token) (shown (script_run E token ClickPublish inp s))
  /\ (length (List.filter external_call (shown (script_run E token ClickPublish inp s)))
      <= 4)%nat.
Proof.
  destruct get_user_urn_trace as (rest & Hid & Hrest).
  destruct (no_call_is_publish_event rest Hrest) as [Hrest1 Hrest2].
  assert (Hidp : Forall (publish_event token) (trace (get_user_urn E token))
                 /\ length (List.filter external_call (trace (get_user_urn E token))) = 1%nat).
  { rewrite Hid. split; [constructor; [by left | done]|].
    simpl. by rewrite Hrest2. }
  destruct Hidp as [Hid1 Hid2].
  destruct (publish_run_forms inp s)
    as [-> | [-> | [-> | (g & uid & uname & mu & _ & _ & _ & _ & ->)]]].
  - split; [constructor | simpl; lia].
  - split; [by repeat constructor | simpl; lia].
  - split; [done | lia].
  - destruct (upload_step_trace inp uid) as [Hup1 Hup2].
    destruct (created_and_reported_trace uid (default g (edited_text inp)) mu
                (linkedin_media_type inp mu)) as (rest' & -> & Hrest').
    destruct (no_call_is_publish_event rest' Hrest') as [Hr1 Hr2].
    split.
    + apply Forall_app. split; [done|]. constructor; [done|].
      apply Forall_app. split; [done|]. constructor; [|done].
      right. right. right. eauto 6.
    + rewrite List.filter_app, length_app, Hid2. cbn [List.filter external_call].
      rewrite List.filter_app, length_app. cbn [List.filter external_call].
      rewrite Hr2. simpl. lia.
Qed.

(** X22: a publish run calls nothing but the identity endpoint unless a
    generated post is stored and the identity helper has returned a true
    user id; in particular nothing is registered, uploaded or posted without
    an identity. *)
Theorem no_call_without_identity (inp : Inputs) (s : gmap string pystr) (q : request) :
  In (Http q) (shown (script_run E token ClickPublish inp s)) ->
  q <> userinfo_request token ->
  exists g uid uname,
    s !! "generated_post" = Some g
    /\ result (get_user_urn E token) = Ok (uid, uname)
    /\ truthy uid = true.
Proof.
  intros Hin Hq.
  destruct get_user_urn_trace as (rest & Hid & Hrest).
  destruct (publish_run_forms inp s)
    as [H | [H | [H | (g & uid & uname & mu & Hg & Hi & Hu & _ & _)]]];
    [| | |by exists g, uid, uname]; rewrite H in Hin; exfalso.
  - by destruct Hin.
  - by destruct Hin as [?|[]].
  - rewrite Hid in Hin. destruct Hin as [[= <-]|Hin]; [done|].
    rewrite List.Forall_forall in Hrest. by specialize (Hrest _ Hin).
Qed.

(** X23: when the media selector is neither [Image] nor [Video], no file is
    attached whatever the two uploaders hold, and a publish run calls only
    the identity endpoint and the post-creation endpoint, the latter without
    media. *)
Theorem no_media_selected_means_no_upload (inp : Inputs) (s : gmap string pystr)
    (media_type : pystr) (image_uploader video_uploader : option UploadedFile)
    (q : request) :
  media_type <> py "Image" ->
  media_type <> py "Video" ->
  uploaded_file inp = chosen_file media_type image_uploader video_uploader ->
  In (Http q) (shown (script_run E token ClickPublish inp s)) ->
  q = userinfo_request token
  \/ exists uid text, q = post_request token uid text JNull JNull.
Proof.
  intros Hi Hv Hf Hin.
  assert (Hnone : uploaded_file inp = None).
  { rewrite Hf. unfold chosen_file, pystr_eqb.
    by rewrite !bool_decide_eq_false_2. }
  destruct get_user_urn_trace as (rest & Hid & Hrest).
  rewrite List.Forall_forall in Hrest.
  destruct (publish_run_forms inp s)
    as [H | [H | [H | (g & uid & uname & mu & _ & _ & _ & Hmu & H)]]]; rewrite H in Hin.
  - by destruct Hin.
  - by destruct Hin as [?|[]].
  - rewrite Hid in Hin. destruct Hin as [[= <-]|Hin]; [by left|].
    by specialize (Hrest _ Hin).
  - rewrite (upload_step_no_file E token inp uid Hnone) in Hmu, Hin.
    injection Hmu as <-.
    assert (Hty : linkedin_media_type inp JNull = JNull).
    { unfold linkedin_media_type. by rewrite Hnone. }
    rewrite Hty in Hin.
    destruct (created_and_reported_trace uid (default g (edited_text inp)) JNull JNull)
      as (rest' & Hc & Hrest').
    rewrite List.Forall_forall in Hrest'.
    rewrite Hc, Hid, trace_pair in Hin. cbn [app] in Hin.
    destruct Hin as [[= <-]|Hin]; [by left|].
    apply in_app_iff in Hin as [Hin|Hin]; [by specialize (Hrest _ Hin)|].
    destruct Hin as [?|[[= <-]|Hin]]; [done| |by specialize (Hrest' _ Hin)].
    right. eauto.
Qed.

(** X30: while a generated post is stored, an exception of the media
    preview ends every run that does not press the generate button before
    its handler is reached: the run shows nothing and calls nothing, the
    publish handler does not run, and the clear button does not clear, so
    the post stays stored.  The preview raises only with a file attached,
    and with the text of [st.image] or [st.video] for that file. *)
Theorem preview_failure_ends_the_run (a : action) (inp : Inputs)
    (s : gmap string pystr) (g : pystr) (e : exn) :
  s !! "generated_post" = Some g ->
  a <> ClickGenerate ->
  media_preview E inp = Raise e ->
  script_run E token a inp s
  = {| session := display inp s; shown := []; ending := Raise e; rerun := false |}
  /\ session (script_run E token a inp s) !! "generated_post" = Some g
  /\ exists f, uploaded_file inp = Some f
               /\ (st_image E f = inl (exn_str e) \/ st_video E f = inl (exn_str e)).
Proof.
  intros Hg Ha He.
  assert (Hp : preview E inp s = Raise e) by by rewrite (preview_generated E inp s g Hg).
  assert (Hrun : script_run E token a inp s
                 = {| session := display inp s; shown := []; ending := Raise e;
                      rerun := false |}).
  { destruct a; [| done | |]; unfold script_run, script_pass; cbn [ret]; by rewrite Hp. }
  split; [exact Hrun|]. split.
  - rewrite Hrun. cbn [session]. by apply display_generated.
  - unfold media_preview in He.
    destruct (uploaded_file inp) as [f|]; [|discriminate].
    exists f. split; [done|].
    destruct (pystr_eqb (media_type inp) (py "Image")).
    + destruct (st_image E f) as [msg|]; [|discriminate].
      injection He as <-. by left.
    + destruct (pystr_eqb (media_type inp) (py "Video")); [|discriminate].
      destruct (st_video E f) as [msg|]; [|discriminate].
      injection He as <-. by right.
Qed.

End PublishBounds.

(** ** Clearing and the whole cycle *)

Section Cycle.

Variable token : pystr.

Lemma clear_handler_deletes (s : gmap string pystr) :
  clear_handler s = delete "editable_post" (delete "generated_post" s).
Proof.
  unfold clear_handler. simpl.
  assert (Hdel : forall (k : string) (m : gmap string pystr),
            (if decide (is_Some (m !! k)) then delete k m else m) = delete k m).
  { intros k m. case_decide as H; [done|].
    apply eq_None_not_Some in H. symmetry. by apply delete_id. }
  by rewrite !Hdel.
Qed.

(** X24: the clear button removes the generated post and the text of the
    text area and leaves every other entry of the session state as it was;
    clearing twice is clearing once, and clearing an empty session state
    leaves it empty. *)
Theorem clear_removes_the_draft_only (s : gmap string pystr) :
  (forall k, clear_handler s !! k
             = if decide (k = "generated_post" \/ k = "editable_post")
               then None else s !! k)
  /\ clear_handler (clear_handler s) = clear_handler s
  /\ clear_handler ∅ = (∅ : gmap string pystr).
Proof.
  assert (Hlook : forall (m : gmap string pystr) k,
            clear_handler m !! k
            = if decide (k = "generated_post" \/ k = "editable_post")
              then None else m !! k).
  { intros m k. rewrite clear_handler_deletes.
    case_decide as Hk.
    - destruct Hk as [-> | ->]; [|apply lookup_delete_eq].
      rewrite lookup_delete_ne by done. apply lookup_delete_eq.
    - rewrite !lookup_delete_ne; [done| |]; intros <-; tauto. }
  split; [apply Hlook|]. split.
  - apply map_eq. intros k. rewrite !Hlook. by case_decide.
  - apply map_eq. intros k. rewrite Hlook. by case_decide.
Qed.

(** X25: the post published after a successful generation carries the text
    that the text area holds in the publish run: the generated text when
    the area takes its default, otherwise the text that the area already
    holds, be it typed by the user or kept from before the generation.
    Once the run has got past the media preview and the identity is
    resolved, its post-creation call is made with that text. *)
Theorem generated_text_is_what_is_posted (E1 E2 : env) (inp1 inp2 : Inputs)
    (s : gmap string pystr) (text : pystr) (uid uname mu : json) :
  truthy_str (project_title inp1) = true ->
  truthy_str (tech1 inp1) = true ->
  generate_content E1 model_name (prompt inp1) = inr text ->
  media_preview E2 inp2 = Ok tt ->
  result (get_user_urn E2 token) = Ok (uid, uname) ->
  truthy uid = true ->
  result (upload_step E2 token uid inp2) = Ok mu ->
  let s1 := session (script_run E1 token ClickGenerate inp1 s) in
  In (Http (post_request token uid (default text (edited_text inp2)) mu
              (linkedin_media_type inp2 mu)))
     (shown (script_run E2 token ClickPublish inp2 s1))
  /\ json_path [py "specificContent"; py "com.linkedin.ugc.ShareContent";
                py "shareCommentary"; py "text"]
               (post_data uid (default text (edited_text inp2)) mu
                  (linkedin_media_type inp2 mu))
     = Some (JStr (default text (edited_text inp2))).
Proof.
  intros Ht H1 Hg Hshow Hid Hu Hmu s1.
  assert (Hs1 : s1 !! "generated_post" = Some text).
  { subst s1.
    pose proof (generate_handler_cases E1 inp1 s) as Hc.
    rewrite Ht, H1, Hg in Hc. cbn [negb orb] in Hc.
    rewrite (script_run_generate E1 token inp1 s _ _ Hc). cbn [session].
    apply display_generated. apply lookup_insert_eq. }
  assert (Hp : preview E2 inp2 s1 = Ok tt)
    by by rewrite (preview_generated E2 inp2 s1 text Hs1).
  split.
  - by destruct (publish_run_identified E2 token inp2 s1 text uid uname mu Hs1 Hp
                   Hid Hu Hmu).
  - change (match share_content (post_data uid (default text (edited_text inp2)) mu
                                   (linkedin_media_type inp2 mu)) with
            | Some sc => json_path [py "shareCommentary"; py "text"] sc
            | None => None
            end = Some (JStr (default text (edited_text inp2)))).
    destruct (truthy mu) eqn:Hm.
    + by rewrite share_content_with_media.
    + by rewrite share_content_without_media.
Qed.

End Cycle.

(** ** The earlier poster *)

Section Poster.

Variable W : poster_world.

Lemma post_to_linkedin_with_secrets (d linkedin : list (pystr * json))
    (access_token person_urn : json) (text : pystr) :
  poster_secrets W = Some d ->
  assoc (py "linkedin") d = Some (JObj linkedin) ->
  assoc (py "access_token") linkedin = Some access_token ->
  assoc (py "person_urn") linkedin = Some person_urn ->
  post_to_linkedin W text
  = poster_requests W (POST_json (JStr post_url) (poster_headers access_token)
                                 (poster_body person_urn text)).
Proof.
  intros Hs Hl Ha Hp.
  unfold post_to_linkedin, secrets_get, subscript.
  rewrite Hs, Hl. cbn [bind ret app]. rewrite Ha. cbn [bind ret app].
  rewrite Hp. cbn [bind ret app].
  by destruct (poster_requests W _) as [t r].
Qed.

(** X26: the earlier poster rejects an empty day, project title or
    technologies field with one error notice; nothing is read from the
    secrets and nothing is sent. *)
Theorem poster_rejects_missing_fields (day project techs future : pystr) :
  day = [] \/ project = [] \/ techs = [] ->
  main_handler W day project techs future = ([Notice Error fill_in_fields_notice], Ok tt).
Proof.
  unfold main_handler.
  intros [-> | [-> | ->]]; simpl; [done | |];
    rewrite ?andb_false_r; done.
Qed.

(** X27: with the three fields filled in and both secrets present, the
    earlier poster makes exactly one call: a POST to the post endpoint whose
    author is the secret person URN as it stands, whose category is [NONE]
    and whose text is the day, project and technologies on separate
    paragraphs, followed by the learning paragraph only when that field is
    filled in. *)
Theorem poster_sends_one_text_post (d linkedin : list (pystr * json))
    (access_token person_urn : json) (day project techs future : pystr) :
  day <> [] -> project <> [] -> techs <> [] ->
  poster_secrets W = Some d ->
  assoc (py "linkedin") d = Some (JObj linkedin) ->
  assoc (py "access_token") linkedin = Some access_token ->
  assoc (py "person_urn") linkedin = Some person_urn ->
  let text :=
    py "Day " ++ day ++ nl ++ nl ++ py "Project: " ++ project
    ++ nl ++ nl ++ py "Tech Stack: " ++ techs
    ++ (if truthy_str future then nl ++ nl ++ py "Upcoming Learning: " ++ future else []) in
  let body := poster_body person_urn text in
  (exists notice,
     trace (main_handler W day project techs future)
     = Http (POST_json (JStr post_url) (poster_headers access_token) body) :: notice
     /\ Forall (fun ev => external_call ev = false) notice)
  /\ json_path [py "author"] body = Some person_urn
  /\ share_content body
     = Some (JObj [(py "shareCommentary", JObj [(py "text", JStr text)]);
                   (py "shareMediaCategory", JStr (py "NONE"))]).
Proof.
  intros Hd Hp Ht Hs Hl Ha Hu text body.
  assert (Htext : poster_text day project techs future = text).
  { subst text. unfold poster_text.
    destruct (truthy_str future); [|by rewrite !app_nil_r].
    by rewrite <- !app_assoc. }
  split; [|by split].
  unfold main_handler.
  destruct day; [done|]. destruct project; [done|]. destruct techs; [done|].
  cbn [truthy_str andb negb].
  rewrite (post_to_linkedin_with_secrets d linkedin access_token person_urn _ Hs Hl Ha Hu).
  rewrite Htext. fold body. unfold poster_requests.
  destruct (poster_send W _) as [msg|res]; cbn [bind emit ret raise app].
  - exists []. by split.
  - destruct (ok res); cbn [bind emit ret raise app];
      (eexists; split; [reflexivity|]; by repeat constructor).
Qed.

(** X28: what the earlier poster shows for an answer: the success notice
    when the status is not 4xx or 5xx, otherwise the failure notice with the
    status code and the body text; when the request gets no response, the
    exception of [requests] escapes the handler. *)
Theorem poster_reports_the_answer (d linkedin : list (pystr * json))
    (access_token person_urn : json) (day project techs future : pystr) :
  day <> [] -> project <> [] -> techs <> [] ->
  poster_secrets W = Some d ->
  assoc (py "linkedin") d = Some (JObj linkedin) ->
  assoc (py "access_token") linkedin = Some access_token ->
  assoc (py "person_urn") linkedin = Some person_urn ->
  let call := POST_json (JStr post_url) (poster_headers access_token)
                (poster_body person_urn (poster_text day project techs future)) in
  main_handler W day project techs future =
    match poster_send W call with
    | inr res =>
      if decide (400 <= status_code (head res) < 600)%Z
      then ([Http call;
             Notice Error (py "❌ Failed to post. " ++ str_int (status_code (head res))
                           ++ py ": " ++ text res)], Ok tt)
      else ([Http call; Notice Success (py "✅ Posted to LinkedIn successfully!")], Ok tt)
    | inl msg => ([Http call], Raise (Exn RequestException msg))
    end.
Proof.
  intros Hd Hp Ht Hs Hl Ha Hu call.
  unfold main_handler.
  destruct day; [done|]. destruct project; [done|]. destruct techs; [done|].
  cbn [truthy_str andb negb].
  rewrite (post_to_linkedin_with_secrets d linkedin access_token person_urn _ Hs Hl Ha Hu).
  fold call. unfold poster_requests.
  destruct (poster_send W call) as [msg|res]; cbn [bind emit ret raise app]; [done|].
  unfold ok. case_decide as Hst.
  - apply http_error_iff in Hst as [m ->]. done.
  - destruct (http_error (head res)) eqn:Hm; [|done].
    destruct Hst. apply http_error_iff. eauto.
Qed.

(** X29: when the secrets file is missing or has no [linkedin] table, the
    earlier poster is ended by the exception of the secrets lookup, which
    escapes the handler; no request is sent and no notice is shown. *)
Theorem poster_without_secrets_sends_nothing (day project techs future : pystr) :
  day <> [] -> project <> [] -> techs <> [] ->
  match poster_secrets W with
  | None => True
  | Some d => assoc (py "linkedin") d = None
  end ->
  exists e, main_handler W day project techs future = ([], Raise e).
Proof.
  intros Hd Hp Ht Hs.
  unfold main_handler, post_to_linkedin, secrets_get, subscript.
  destruct day; [done|]. destruct project; [done|]. destruct techs; [done|].
  cbn [truthy_str andb negb].
  destruct (poster_secrets W) as [d|]; [rewrite Hs|]; cbn; eauto.
Qed.

End Poster.

(** ** The further properties at sample inputs *)

Ltac differ := let H := fresh in intros H; vm_compute in H; discriminate.
Ltac no_error_status :=
  let H := fresh in intros [H _]; vm_compute in H; by apply H.

(** X1 at a secrets file that holds the Gemini key only. *)
Lemma incomplete_secrets_still_count_witness :
  get_api_keys (Some gemini_only_secrets) both_environ
  = ([], Ok (JStr (py "AIza-key"), JStr (py "env-token"))).
Proof.
  destruct (incomplete_secrets_still_count both_environ (Some gemini_only_secrets))
    as [-> _]; [right; evaluate | evaluate].
Defined.

(** X2 at a secrets file with an empty LinkedIn token, both environment
    variables being set. *)
Lemma falsy_secret_stops_the_script_witness :
  startup (Some empty_token_secrets) both_environ
  = ([Notice Error configure_notice; Notice Info setup_help], Ok None).
Proof.
  apply (falsy_secret_stops_the_script both_environ empty_token_secrets
           (JStr (py "AIza-key")) (JStr [])); [evaluate | evaluate |].
  right. reflexivity.
Defined.

(** X3 without a secrets file, and with a secrets file that holds the
    Gemini key only, both environment variables being set. *)
Lemma startup_from_environment_witness :
  startup None both_environ
  = ([], Ok (Some (JStr (py "env-key"), JStr (py "env-token"))))
  /\ startup (Some gemini_only_secrets) both_environ
     = ([], Ok (Some (JStr (py "AIza-key"), JStr (py "env-token")))).
Proof.
  split.
  - destruct (startup_from_environment both_environ None I) as [Hiff _].
    apply Hiff. exists (py "env-key"), (py "env-token").
    split; [evaluate|]. split; [differ|]. split; [evaluate|]. split; [differ|].
    reflexivity.
  - destruct (startup_from_environment both_environ (Some gemini_only_secrets))
      as [Hiff _]; [right; evaluate|].
    apply Hiff. exists (py "AIza-key"), (py "env-token").
    split; [evaluate|]. split; [differ|]. split; [evaluate|]. split; [differ|].
    reflexivity.
Defined.

(** X4 at the Todo App inputs. *)
Lemma generation_stores_the_draft_witness :
  session (script_run happy_world sample_token ClickGenerate todo_inputs ∅)
    !! "generated_post" = Some sample_post.
Proof.
  apply (generation_stores_the_draft happy_world sample_token todo_inputs ∅ sample_post);
    evaluate.
Defined.

(** X5 when the text model is out of quota and a draft is stored. *)
Lemma failed_generation_keeps_the_draft_witness :
  session (script_run quota_world sample_token ClickGenerate todo_inputs generated_session)
    !! "generated_post" = Some sample_post.
Proof.
  destruct (failed_generation_keeps_the_draft quota_world sample_token todo_inputs
              generated_session (py "429 Resource has been exhausted"))
    as (_ & Hs & _); [evaluate | evaluate | evaluate |].
  rewrite Hs. evaluate.
Defined.

(** X8 at inputs with the three optional fields filled in. *)
Lemma custom_fields_reach_the_prompt_witness :
  substring (nl ++ py "- Custom Milestone: " ++ py "Built the list view" ++ nl)
            (prompt customised_inputs)
  /\ substring (nl ++ py "- Additional Skills: " ++ py "State Management" ++ nl)
               (prompt customised_inputs)
  /\ substring (nl ++ py "- Next Phase: " ++ py "Deployment" ++ nl)
               (prompt customised_inputs).
Proof.
  destruct (custom_fields_reach_the_prompt customised_inputs) as (H1 & H2 & H3).
  split; [apply H1; differ|]. split; [apply H2; differ | apply H3; differ].
Defined.

(** X9 at an identity answer without a name. *)
Lemma identity_is_read_from_the_answer_witness :
  get_user_urn sub_only_world sample_token
  = ([Http (userinfo_request sample_token)], Ok (sample_user, JStr (py "N/A"))).
Proof.
  rewrite (identity_is_read_from_the_answer sub_only_world sample_token sub_only_answer
             [(py "sub", sample_user)]); [evaluate | evaluate | no_error_status | evaluate].
Defined.

(** X10 at an identity answer without a [sub]. *)
Lemma missing_user_id_aborts_silently_witness :
  shown (script_run no_sub_world sample_token ClickPublish todo_inputs generated_session)
  = [Http (userinfo_request sample_token)].
Proof.
  apply (missing_user_id_aborts_silently no_sub_world sample_token todo_inputs
           generated_session sample_post nameless_answer [(py "name", JStr (py "Ada"))]);
    [evaluate | evaluate | evaluate | no_error_status | evaluate | evaluate].
Defined.

(** X11 when the network is down. *)
Lemma identity_without_response_ends_the_run_witness :
  shown (script_run offline_world sample_token ClickPublish todo_inputs generated_session)
  = [Http (userinfo_request sample_token); Notice Error (fetch_error_notice refused)].
Proof.
  apply (identity_without_response_ends_the_run offline_world sample_token todo_inputs
           generated_session sample_post refused); evaluate.
Defined.

(** X12 at an identity answer that is a web page, and at one that is a JSON
    list. *)
Lemma identity_answer_not_an_object_witness :
  shown (script_run html_identity_world sample_token ClickPublish todo_inputs
           generated_session)
  = [Http (userinfo_request sample_token); Notice Error (fetch_error_notice not_json)]
  /\ shown (script_run list_identity_world sample_token ClickPublish todo_inputs
              generated_session)
     = [Http (userinfo_request sample_token)].
Proof.
  split.
  - destruct (identity_answer_not_an_object html_identity_world sample_token todo_inputs
                generated_session sample_post (ok_answer userinfo_url (inl not_json)))
      as [Hhtml _]; [evaluate | evaluate | evaluate | no_error_status |].
    by destruct (Hhtml not_json eq_refl).
  - destruct (identity_answer_not_an_object list_identity_world sample_token todo_inputs
                generated_session sample_post (ok_answer userinfo_url (inr (JArr []))))
      as [_ Hlist]; [evaluate | evaluate | evaluate | no_error_status |].
    by destruct (Hlist (JArr []) eq_refl).
Defined.

(** X13 for the PNG when every endpoint answers well. *)
Lemma upload_returns_the_registered_asset_witness :
  result (upload_media_to_linkedin happy_world sample_token sample_user
            (file_bytes png_file) (file_type png_file))
  = Ok sample_asset.
Proof.
  rewrite (upload_returns_the_registered_asset happy_world sample_token sample_user
             (file_bytes png_file) (file_type png_file) register_ok upload_ok
             (JObj [(py "value", JObj [
                (py "uploadMechanism", JObj [
                   (py "com.linkedin.digitalmedia.uploading.MediaUploadHttpRequest",
                    JObj [(py "uploadUrl", JStr sample_upload_url)])]);
                (py "asset", sample_asset)])])
             (JStr sample_upload_url) sample_asset);
    [reflexivity | evaluate | no_error_status | evaluate | evaluate | evaluate
     | evaluate | no_error_status].
Defined.

(** X14 for the PNG when every endpoint answers well. *)
Lemma upload_result_is_None_or_the_asset_witness :
  sample_asset = JNull
  \/ exists r j u r2,
       send happy_world (register_request sample_token sample_user (file_type png_file))
       = inr r
       /\ content r = inr j
       /\ json_path [py "value"; py "asset"] j = Some sample_asset
       /\ json_path [py "value"; py "uploadMechanism";
                     py "com.linkedin.digitalmedia.uploading.MediaUploadHttpRequest";
                     py "uploadUrl"] j = Some u
       /\ send happy_world
            (POST_data u [(py "Authorization", py "Bearer " ++ sample_token)]
               (file_bytes png_file)) = inr r2
       /\ ~ (400 <= status_code r2 < 600)%Z.
Proof.
  apply (upload_result_is_None_or_the_asset happy_world sample_token sample_user
           (file_bytes png_file) (file_type png_file) sample_asset).
  evaluate.
Defined.

(** X15 when the upload URL answers 403. *)
Lemma failed_binary_upload_drops_the_asset_witness :
  result (upload_media_to_linkedin upload_forbidden_world sample_token sample_user
            (file_bytes png_file) (file_type png_file))
  = Ok JNull.
Proof.
  rewrite (failed_binary_upload_drops_the_asset upload_forbidden_world sample_token
             sample_user (file_bytes png_file) (file_type png_file) register_ok
             (JObj [(py "value", JObj [
                (py "uploadMechanism", JObj [
                   (py "com.linkedin.digitalmedia.uploading.MediaUploadHttpRequest",
                    JObj [(py "uploadUrl", JStr sample_upload_url)])]);
                (py "asset", sample_asset)])])
             (JStr sample_upload_url) sample_asset
             (py "403 Client Error: Forbidden for url: https://www.linkedin.com/dms-uploads/abc"));
    [reflexivity | evaluate | no_error_status | evaluate | evaluate | evaluate |].
  right. exists (forbidden sample_upload_url). split; evaluate.
Defined.

(** X16 when the registration endpoint answers with an empty object. *)
Lemma registration_without_value_is_reported_witness :
  upload_media_to_linkedin register_empty_world sample_token sample_user
    (file_bytes png_file) (file_type png_file)
  = ([Http (register_request sample_token sample_user (file_type png_file));
      Notice Error (py "Error uploading media: 'value'")],
     Ok JNull).
Proof.
  apply (registration_without_value_is_reported register_empty_world sample_token
           sample_user (file_bytes png_file) (file_type png_file)
           (ok_answer register_url (inr (JObj []))) []);
    [evaluate | no_error_status | evaluate | evaluate].
Defined.

(** X18 at the Todo App inputs when every endpoint answers well. *)
Lemma text_only_publish_succeeds_witness :
  shown (script_run happy_world sample_token ClickPublish todo_inputs generated_session)
  = [Http (userinfo_request sample_token);
     Notice Info (py "👤 Posting as: Ada");
     Http (post_request sample_token sample_user sample_post JNull JNull);
     Notice Success (py "🎉 Post published successfully to LinkedIn!");
     Balloons;
     ShowJson (JObj [(py "id", JStr (py "urn:li:share:7001"))])].
Proof.
  destruct (text_only_publish_succeeds happy_world sample_token todo_inputs
              generated_session sample_post sample_user sample_name post_created
              (JObj [(py "id", JStr (py "urn:li:share:7001"))]))
    as (Hshown & _);
    [evaluate | evaluate | evaluate | evaluate | evaluate | no_error_status | evaluate |].
  rewrite Hshown. evaluate.
Defined.

(** X19 when the post endpoint answers 403. *)
Lemma post_failure_is_reported_witness :
  exists before,
    shown (script_run post_forbidden_world sample_token ClickPublish todo_inputs
             generated_session)
    = before ++ [Http (post_request sample_token sample_user sample_post JNull JNull);
                 Notice Error (py "❌ Failed to publish post: Insufficient permissions. Check your LinkedIn app scopes")].
Proof.
  destruct (post_failure_is_reported post_forbidden_world sample_token todo_inputs
              generated_session sample_post sample_user sample_name JNull
              (forbidden post_url))
    as (before & msg & _ & Hshown & _);
    [evaluate | evaluate | evaluate | evaluate | evaluate | evaluate
     | vm_compute; by split |].
  exists before. rewrite Hshown. evaluate.
Defined.

(** X20 when the post endpoint cannot be reached. *)
Lemma post_without_response_ends_the_run_witness :
  exists e,
    ending (script_run post_offline_world sample_token ClickPublish todo_inputs
              generated_session) = Raise e
    /\ exn_class_of e = UnboundLocalError.
Proof.
  apply (post_without_response_ends_the_run post_offline_world sample_token todo_inputs
           generated_session sample_post sample_user sample_name JNull refused);
    evaluate.
Defined.

(** X22 at the post-creation call of a run in which every endpoint answers
    well. *)
Lemma no_call_without_identity_witness :
  exists g uid uname,
    generated_session !! "generated_post" = Some g
    /\ result (get_user_urn happy_world sample_token) = Ok (uid, uname)
    /\ truthy uid = true.
Proof.
  apply (no_call_without_identity happy_world sample_token todo_inputs generated_session
           (post_request sample_token sample_user sample_post JNull JNull)).
  - vm_compute. right. right. left. reflexivity.
  - differ.
Defined.

(** X23 with the selector at [None] while the image uploader still holds the
    PNG. *)
Lemma no_media_selected_means_no_upload_witness :
  exists uid text,
    post_request sample_token sample_user sample_post JNull JNull
    = post_request sample_token uid text JNull JNull.
Proof.
  destruct (no_media_selected_means_no_upload happy_world sample_token todo_inputs
              generated_session (py "None") (Some png_file) None
              (post_request sample_token sample_user sample_post JNull JNull))
    as [Hget | Hpost].
  - differ.
  - differ.
  - evaluate.
  - vm_compute. right. right. left. reflexivity.
  - vm_compute in Hget. discriminate.
  - exact Hpost.
Defined.

(** X25 at the Todo App inputs when every endpoint answers well. *)
Lemma generated_text_is_what_is_posted_witness :
  In (Http (post_request sample_token sample_user sample_post JNull JNull))
     (shown (script_run happy_world sample_token ClickPublish todo_inputs
               (session (script_run happy_world sample_token ClickGenerate
                           todo_inputs ∅)))).
Proof.
  apply (generated_text_is_what_is_posted sample_token happy_world happy_world
           todo_inputs todo_inputs ∅ sample_post sample_user sample_name JNull);
    evaluate.
Defined.

(** X26 at an empty project title. *)
Lemma poster_rejects_missing_fields_witness :
  main_handler poster_ok_world (py "5") [] (py "React") []
  = ([Notice Error fill_in_fields_notice], Ok tt).
Proof.
  apply (poster_rejects_missing_fields poster_ok_world (py "5") [] (py "React") []).
  right. left. reflexivity.
Defined.

(** X27 at day 5, Todo App, React, with nothing to learn next. *)
Lemma poster_sends_one_text_post_witness :
  json_path [py "author"]
    (poster_body sample_person
       (py "Day " ++ py "5" ++ nl ++ nl ++ py "Project: " ++ py "Todo App"
        ++ nl ++ nl ++ py "Tech Stack: " ++ py "React" ++ []))
  = Some sample_person.
Proof.
  destruct (poster_sends_one_text_post poster_ok_world poster_secrets_file poster_linkedin
              (JStr sample_token) sample_person (py "5") (py "Todo App") (py "React") [])
    as (_ & Hauthor & _);
    [differ | differ | differ | evaluate | evaluate | evaluate | evaluate |].
  exact Hauthor.
Defined.

(** X28 when the post endpoint answers 403. *)
Lemma poster_reports_the_answer_witness :
  result (main_handler poster_forbidden_world (py "5") (py "Todo App") (py "React") [])
  = Ok tt
  /\ In (Notice Error (py "❌ Failed to post. 403: no scope"))
        (trace (main_handler poster_forbidden_world (py "5") (py "Todo App") (py "React") [])).
Proof.
  rewrite (poster_reports_the_answer poster_forbidden_world poster_secrets_file
             poster_linkedin (JStr sample_token) sample_person
             (py "5") (py "Todo App") (py "React") []);
    [| differ | differ | differ | evaluate | evaluate | evaluate | evaluate].
  split; [evaluate|]. vm_compute. right. left. reflexivity.
Defined.

(** X29 without a secrets file. *)
Lemma poster_without_secrets_sends_nothing_witness :
  exists e, main_handler poster_bare_world (py "5") (py "Todo App") (py "React") []
            = ([], Raise e).
Proof.
  apply (poster_without_secrets_sends_nothing poster_bare_world
           (py "5") (py "Todo App") (py "React") []); [differ | differ | differ | exact I].
Defined.

(** X30 with a file attached as an image that is no image, when every
    endpoint answers well. *)
Lemma preview_failure_ends_the_run_witness :
  shown (script_run happy_world sample_token ClickPublish
           (with_file todo_inputs png_file) generated_session) = []
  /\ ending (script_run happy_world sample_token ClickPublish
               (with_file todo_inputs png_file) generated_session)
     = Raise (Exn OtherException (py "cannot identify image file")).
Proof.
  destruct (preview_failure_ends_the_run happy_world sample_token ClickPublish
              (with_file todo_inputs png_file) generated_session sample_post
              (Exn OtherException (py "cannot identify image file")))
    as (Hrun & _); [evaluate | discriminate | evaluate |].
  by rewrite Hrun.
Defined.
